(** * User service: account store and request handlers

    A shallow embedding of [user_service/main.py]: the [users] table that
    [init_db] creates, the five request handlers that read and write it,
    and the password digest they share.  The handlers are written in a
    small state-and-exception monad over the table, whose statements can
    be interleaved with the committed writes of other connections. *)

From Stdlib Require Import ZArith List String Ascii Bool Lia Sorted.
From Stdlib Require Import DecimalString.
Import ListNotations.
Set Warnings "-register-all".
Local Open Scope string_scope.
Local Open Scope list_scope.
Local Open Scope Z_scope.

(* ================================================================= *)
(** ** [hashlib.sha256]: the digest behind [hash_password] *)

Module SHA256.

Definition mask32 : Z := 0xffffffff.
Definition w32 (x : Z) : Z := Z.land x mask32.
Definition add32 (x y : Z) : Z := w32 (x + y).
Definition rotr (n x : Z) : Z :=
  Z.lor (Z.shiftr x n) (w32 (Z.shiftl x (32 - n))).
Definition shr (n x : Z) : Z := Z.shiftr x n.

Definition Ch (x y z : Z) : Z :=
  Z.lxor (Z.land x y) (Z.land (Z.lxor x mask32) z).
Definition Maj (x y z : Z) : Z :=
  Z.lxor (Z.lxor (Z.land x y) (Z.land x z)) (Z.land y z).
Definition Sigma0 (x : Z) : Z :=
  Z.lxor (Z.lxor (rotr 2 x) (rotr 13 x)) (rotr 22 x).
Definition Sigma1 (x : Z) : Z :=
  Z.lxor (Z.lxor (rotr 6 x) (rotr 11 x)) (rotr 25 x).
Definition sigma0 (x : Z) : Z :=
  Z.lxor (Z.lxor (rotr 7 x) (rotr 18 x)) (shr 3 x).
Definition sigma1 (x : Z) : Z :=
  Z.lxor (Z.lxor (rotr 17 x) (rotr 19 x)) (shr 10 x).

(** The round constants are the first 32 bits of the fractional parts
    of the cube roots of the first 64 primes, the initial hash value
    those of the square roots of the first 8. *)
Definition is_prime (p : Z) : bool :=
  forallb (fun k => negb (p mod Z.of_nat k =? 0))
          (seq 2 (Z.to_nat p - 2)).

Definition primes : list Z := filter is_prime (map Z.of_nat (seq 2 310)).

Fixpoint cube_root (bits : nat) (n r : Z) : Z :=
  match bits with
  | O => r
  | S b =>
      let r' := r + 2 ^ Z.of_nat b in
      cube_root b n (if r' * r' * r' <=? n then r' else r)
  end.

Definition K : list Z :=
  map (fun p => w32 (cube_root 36 (p * 2 ^ 96) 0)) primes.

Definition H0 : list Z :=
  map (fun p => w32 (Z.sqrt (p * 2 ^ 64))) (firstn 8 primes).

(** The message as bytes, then the padding: a single 1 bit, zeros up
    to 56 modulo 64, and the bit length on eight big-endian bytes. *)
Definition bytes_of_string (s : string) : list Z :=
  map (fun c => Z.of_N (N_of_ascii c)) (list_ascii_of_string s).

Fixpoint big_endian (n : nat) (x : Z) : list Z :=
  match n with
  | O => []
  | S n' => Z.land (Z.shiftr x (8 * Z.of_nat n')) 0xff :: big_endian n' x
  end.

Definition pad (msg : list Z) : list Z :=
  let len := Z.of_nat (List.length msg) in
  msg ++ [0x80] ++ repeat 0 (Z.to_nat ((55 - len) mod 64))
      ++ big_endian 8 (8 * len).

Definition word_of_bytes (bs : list Z) : Z :=
  fold_left (fun acc b => Z.lor (Z.shiftl acc 8) b) bs 0.

Fixpoint words_of_bytes (n : nat) (bs : list Z) : list Z :=
  match n with
  | O => []
  | S n' => word_of_bytes (firstn 4 bs) :: words_of_bytes n' (skipn 4 bs)
  end.

(** The message schedule, kept most recent word first while it grows. *)
Fixpoint extend (n : nat) (rw : list Z) : list Z :=
  match n with
  | O => rw
  | S n' =>
      let w := add32 (add32 (sigma1 (nth 1 rw 0)) (nth 6 rw 0))
                     (add32 (sigma0 (nth 14 rw 0)) (nth 15 rw 0)) in
      extend n' (w :: rw)
  end.

Definition schedule (block : list Z) : list Z :=
  rev (extend 48 (rev (words_of_bytes 16 block))).

Definition round (st : list Z) (kw : Z * Z) : list Z :=
  match st with
  | [a; b; c; d; e; f; g; h] =>
      let T1 := add32 (add32 (add32 h (Sigma1 e)) (Ch e f g))
                      (add32 (fst kw) (snd kw)) in
      let T2 := add32 (Sigma0 a) (Maj a b c) in
      [add32 T1 T2; a; b; c; add32 d T1; e; f; g]
  | _ => st
  end.

Definition compress (h : list Z) (block : list Z) : list Z :=
  let st := fold_left round (combine K (schedule block)) h in
  map (fun p => add32 (fst p) (snd p)) (combine h st).

Fixpoint blocks (n : nat) (h : list Z) (bs : list Z) : list Z :=
  match n with
  | O => h
  | S n' => blocks n' (compress h (firstn 64 bs)) (skipn 64 bs)
  end.

Definition digest (msg : list Z) : list Z :=
  let p := pad msg in
  flat_map (big_endian 4) (blocks (Nat.div (List.length p) 64) H0 p).

Definition hex_digit (x : Z) : ascii :=
  if x <? 10 then ascii_of_N (Z.to_N (48 + x))
  else ascii_of_N (Z.to_N (87 + x)).

Definition hex_of_byte (b : Z) : list ascii :=
  [hex_digit (Z.shiftr b 4); hex_digit (Z.land b 0xf)].

Definition hexdigest (s : string) : string :=
  string_of_list_ascii (flat_map hex_of_byte (digest (bytes_of_string s))).

End SHA256.

(* ================================================================= *)
(** ** Python values and exceptions *)

(** What a handler returns: ints, strings, dicts and lists.  A dict is
    kept as its items in insertion order. *)
Inductive value : Type :=
| VInt (n : Z)
| VStr (s : string)
| VDict (items : list (string * value))
| VList (xs : list value).

(** The exceptions the handlers can meet.  The [sqlite3] ones carry the
    message of the SQLite error they wrap. *)
Inductive exn : Type :=
| HTTPException (status_code : Z) (detail : string)
| IntegrityError (msg : string)
| OperationalError (msg : string)
| OverflowError (msg : string)
| TypeError (msg : string)
| IndexError (msg : string)
| InterfaceError (msg : string)
| DatabaseError (msg : string)
| DataError (msg : string)
| InternalError (msg : string)
| ProgrammingError (msg : string)
| NotSupportedError (msg : string).

Inductive result (A : Type) : Type :=
| Ok (a : A)
| Raise (e : exn).
Arguments Ok {A} a.
Arguments Raise {A} e.

(** [str(n)] for an int. *)
Definition str_int (n : Z) : string := NilZero.string_of_int (Z.to_int n).

(** [str(e)]: the message for the built-in and [sqlite3] exceptions,
    [status_code: detail] for an [HTTPException]. *)
Definition str (e : exn) : string :=
  match e with
  | HTTPException c d => (str_int c ++ ": " ++ d)%string
  | IntegrityError m | OperationalError m | OverflowError m
  | TypeError m | IndexError m => m
  | InterfaceError m | DatabaseError m | DataError m
  | InternalError m | ProgrammingError m | NotSupportedError m => m
  end.

(** What the storage layer can fail with: an exception of one of the
    classes of [sqlite3.Error], with the message of the SQLite error. *)
Variant sqlite3_class : Type :=
| InterfaceClass | DatabaseClass | DataClass | OperationalClass
| IntegrityClass | InternalClass | ProgrammingClass | NotSupportedClass.

Variant sqlite3_error : Type :=
| Sqlite3 (cls : sqlite3_class) (msg : string).

Definition sqlite3_exn (f : sqlite3_error) : exn :=
  match f with
  | Sqlite3 InterfaceClass m => InterfaceError m
  | Sqlite3 DatabaseClass m => DatabaseError m
  | Sqlite3 DataClass m => DataError m
  | Sqlite3 OperationalClass m => OperationalError m
  | Sqlite3 IntegrityClass m => IntegrityError m
  | Sqlite3 InternalClass m => InternalError m
  | Sqlite3 ProgrammingClass m => ProgrammingError m
  | Sqlite3 NotSupportedClass m => NotSupportedError m
  end.

(* ================================================================= *)
(** ** Request models *)

Module UserCreate.
Record t : Type := { username : string; email : string; password : string }.
End UserCreate.

Module UserLogin.
Record t : Type := { username : string; password : string }.
End UserLogin.

(* ================================================================= *)
(** ** The [users] table

    [[
    CREATE TABLE IF NOT EXISTS users (
        id INTEGER PRIMARY KEY AUTOINCREMENT,
        username TEXT UNIQUE NOT NULL,
        email TEXT UNIQUE NOT NULL,
        password_hash TEXT NOT NULL,
        created_at TEXT NOT NULL)
    ]]

    The table is a B-tree keyed by [id], so its rows are kept here in
    the order a scan visits them.  [AUTOINCREMENT] makes SQLite remember,
    in [sqlite_sequence], the largest [id] the table has ever held. *)

Record Row : Type := {
  id : Z;
  username : string;
  email : string;
  password_hash : string;
  created_at : string
}.

Record Database : Type := {
  users : list Row;
  sqlite_sequence : Z
}.

Definition INT64_MIN : Z := - 2 ^ 63.
Definition INT64_MAX : Z := 2 ^ 63 - 1.

(** [init_db] on the file as it is found: a missing table is created
    empty, an existing one is left alone ([IF NOT EXISTS]). *)
Definition init_db (file : option Database) : Database :=
  match file with
  | Some d => d
  | None => {| users := []; sqlite_sequence := 0 |}
  end.

(** A row of a result set, a [sqlite3.Row]: the selected columns with
    their values, looked up by name. *)
Definition SqlRow : Type := list (string * value).

Definition column (c : string) (r : Row) : option value :=
  if String.eqb c "id" then Some (VInt (id r))
  else if String.eqb c "username" then Some (VStr (username r))
  else if String.eqb c "email" then Some (VStr (email r))
  else if String.eqb c "password_hash" then Some (VStr (password_hash r))
  else if String.eqb c "created_at" then Some (VStr (created_at r))
  else None.

Definition project (cols : list string) (r : Row) : SqlRow :=
  flat_map (fun c => match column c r with
                     | Some v => [(c, v)]
                     | None => []
                     end) cols.

(** [SELECT cols FROM users WHERE p], the rows in table order.  The one
    query whose rows are all read has no [WHERE] clause and scans the
    table; of the others only the first row, or whether there is one,
    is used. *)
Definition sql_select (cols : list string) (p : Row -> bool)
    (d : Database) : list SqlRow :=
  map (project cols) (filter p (users d)).

Definition max_rowid (rs : list Row) : Z :=
  fold_right (fun r m => Z.max (id r) m) 0 rs.

(** [INSERT INTO users (username, email, password_hash, created_at)
    VALUES (?, ?, ?, ?)] followed by [commit].  The new [id] is one more
    than the largest the table has ever held; there is none left after
    [INT64_MAX].  The unique index on [email] is checked before the one
    on [username].  A statement that fails leaves the file as it was. *)
Definition sql_insert (u e h c : string) (d : Database)
    : Database * result Z :=
  let last := Z.max (sqlite_sequence d) (max_rowid (users d)) in
  if INT64_MAX <=? last then
    (d, Raise (OperationalError "database or disk is full"))
  else if existsb (fun r => String.eqb (email r) e) (users d) then
    (d, Raise (IntegrityError "UNIQUE constraint failed: users.email"))
  else if existsb (fun r => String.eqb (username r) u) (users d) then
    (d, Raise (IntegrityError "UNIQUE constraint failed: users.username"))
  else
    let r := {| id := last + 1; username := u; email := e;
                password_hash := h; created_at := c |} in
    ({| users := users d ++ [r]; sqlite_sequence := last + 1 |},
     Ok (last + 1)).

(** [DELETE FROM users WHERE id = ?] followed by [commit]. *)
Definition sql_delete (n : Z) (d : Database) : Database :=
  {| users := filter (fun r => negb (id r =? n)) (users d);
     sqlite_sequence := sqlite_sequence d |}.

(** A Python int is bound to a statement as a 64-bit integer. *)
Definition bind_int (n : Z) : result Z :=
  if (INT64_MIN <=? n) && (n <=? INT64_MAX) then Ok n
  else Raise (OverflowError
                "Python int too large to convert to SQLite INTEGER").

(* ================================================================= *)
(** ** Connections

    Every handler opens a connection of its own ([get_db]) and other
    requests are served meanwhile on theirs.  What a handler sees of them
    is that, by the time one of its statements runs, other connections
    may have committed writes, and that the statement itself may fail for
    a reason of the storage layer (a locked or unreadable file).  An
    [INSERT] or [DELETE] and the [commit] that follows it are one step:
    SQLite holds the write lock from the one to the other. *)

Inductive Write : Type :=
| WInsert (u e h c : string)
| WDelete (n : Z).

Definition apply_write (d : Database) (w : Write) : Database :=
  match w with
  | WInsert u e h c => fst (sql_insert u e h c d)
  | WDelete n => sql_delete n d
  end.

(** What happens around one statement of the handler: the writes other
    connections commit before it, and the storage failure it meets. *)
Record Slot : Type := {
  writes : list Write;
  fault : option sqlite3_error
}.

Definition quiet : Slot := {| writes := []; fault := None |}.

(** [opening] is the failure, if any, that [sqlite3.connect] meets when
    the handler opens its connection. *)
Record World : Type := {
  db : Database;
  others : list Slot;
  opening : option sqlite3_error
}.

Definition M (A : Type) : Type := World -> World * result A.

Definition ret {A} (a : A) : M A := fun w => (w, Ok a).

Definition raise {A} (e : exn) : M A := fun w => (w, Raise e).

Definition bind {A B} (m : M A) (k : A -> M B) : M B :=
  fun w =>
    match m w with
    | (w', Ok a) => k a w'
    | (w', Raise e) => (w', Raise e)
    end.

Declare Scope handler_scope.
Delimit Scope handler_scope with handler.
Notation "x <- m ;; k" := (bind m (fun x => k))
  (at level 100, m at next level, right associativity) : handler_scope.
Notation "m ;;; k" := (bind m (fun _ => k))
  (at level 100, right associativity) : handler_scope.
Local Open Scope handler_scope.

(** [try: m  except Exception as e: h e] *)
Definition try_except {A} (m : M A) (h : exn -> M A) : M A :=
  fun w =>
    match m w with
    | (w', Ok a) => (w', Ok a)
    | (w', Raise e) => h e w'
    end.

(** [try: m  finally: f] *)
Definition try_finally {A} (m : M A) (f : M unit) : M A :=
  fun w =>
    match m w with
    | (w', r) =>
        match f w' with
        | (w'', Ok _) => (w'', r)
        | (w'', Raise e) => (w'', Raise e)
        end
    end.

(** One statement on the connection. *)
Definition statement {A} (f : Database -> Database * result A) : M A :=
  fun w =>
    let slot := hd quiet (others w) in
    let d := fold_left apply_write (writes slot) (db w) in
    match fault slot with
    | Some f => ({| db := d; others := tl (others w);
                    opening := opening w |},
                 Raise (sqlite3_exn f))
    | None =>
        let (d', r) := f d in
        ({| db := d'; others := tl (others w); opening := opening w |}, r)
    end.

Definition of_result {A} (r : result A) : M A := fun w => (w, r).

(** [cursor.execute("SELECT cols FROM users WHERE ...")] *)
Definition execute_select (cols : list string) (p : Row -> bool)
    : M (list SqlRow) :=
  statement (fun d => (d, Ok (sql_select cols p d))).

(** [cursor.execute("SELECT cols FROM users WHERE id = ?", (n,))] *)
Definition execute_select_id (cols : list string) (n : Z)
    : M (list SqlRow) :=
  k <- of_result (bind_int n) ;;
  execute_select cols (fun r => id r =? k).

(** [cursor.execute("INSERT ...")], [conn.commit()], [cursor.lastrowid] *)
Definition execute_insert (u e h c : string) : M Z :=
  statement (sql_insert u e h c).

(** [cursor.execute("DELETE FROM users WHERE id = ?", (n,))],
    [conn.commit()] *)
Definition execute_delete (n : Z) : M unit :=
  k <- of_result (bind_int n) ;;
  statement (fun d => (sql_delete k d, Ok tt)).

(** [conn = get_db()] and [cursor = conn.cursor()]: the connection is
    opened, or [sqlite3.connect] raises. *)
Definition get_db : M unit :=
  fun w =>
    match opening w with
    | Some f => (w, Raise (sqlite3_exn f))
    | None => (w, Ok tt)
    end.

(** [conn.close()]: nothing is left uncommitted to roll back. *)
Definition close : M unit := ret tt.

Definition fetchone (rows : list SqlRow) : option SqlRow := hd_error rows.

Fixpoint lookup (k : string) (row : SqlRow) : option value :=
  match row with
  | [] => None
  | (k', v) :: rest => if String.eqb k' k then Some v else lookup k rest
  end.

(** [row[k]], for [row] the outcome of a [fetchone]. *)
Definition getitem (row : option SqlRow) (k : string) : M value :=
  match row with
  | None => raise (TypeError "'NoneType' object is not subscriptable")
  | Some r =>
      match lookup k r with
      | Some v => ret v
      | None => raise (IndexError "No item with that key")
      end
  end.

Fixpoint for_each {A B} (f : A -> M B) (xs : list A) : M (list B) :=
  match xs with
  | [] => ret []
  | x :: rest => y <- f x ;; ys <- for_each f rest ;; ret (y :: ys)
  end.

(* ================================================================= *)
(** ** Helper functions and handlers of [main.py]

    A handler returns the dict it builds or raises; turning that into a
    response (the status line, [response_model]) is FastAPI's part and
    is not modelled. *)

Definition hash_password (password : string) : string :=
  SHA256.hexdigest password.

Definition all_columns : list string :=
  ["id"; "username"; "email"; "created_at"].

(** [POST /users/register]: the [try] block.  [utcnow] is what
    [datetime.utcnow().isoformat()] reads from the clock. *)
Definition register_try (user : UserCreate.t) (utcnow : string) : M value :=
  rows <- execute_select ["id"]
            (fun r => String.eqb (username r) (UserCreate.username user)
                      || String.eqb (email r) (UserCreate.email user)) ;;
  match fetchone rows with
  | Some _ => raise (HTTPException 400 "Username or email already exists")
  | None =>
      let password_hash := hash_password (UserCreate.password user) in
      let created_at := utcnow in
      user_id <- execute_insert (UserCreate.username user)
                   (UserCreate.email user) password_hash created_at ;;
      rows <- execute_select_id all_columns user_id ;;
      let row := fetchone rows in
      v_id <- getitem row "id" ;;
      v_username <- getitem row "username" ;;
      v_email <- getitem row "email" ;;
      v_created_at <- getitem row "created_at" ;;
      ret (VDict [("id", v_id); ("username", v_username);
                  ("email", v_email); ("created_at", v_created_at)])
  end.

(** Its [except] clauses: [except HTTPException: raise] and
    [except Exception as e: raise HTTPException(500, str(e))]. *)
Definition register_except (e : exn) : M value :=
  match e with
  | HTTPException _ _ => raise e
  | _ => raise (HTTPException 500 (str e))
  end.

(** The connection is opened before the [try]: what [get_db] raises
    is caught by no clause. *)
Definition register_user (user : UserCreate.t) (utcnow : string) : M value :=
  get_db ;;;
  try_finally
    (try_except (register_try user utcnow) register_except)
    close.

(** [POST /users/login] *)
Definition login_user (credentials : UserLogin.t) : M value :=
  get_db ;;;
  try_finally
    (let hashed := hash_password (UserLogin.password credentials) in
     rows <- execute_select ["id"; "username"; "email"]
               (fun r => String.eqb (username r)
                                    (UserLogin.username credentials)
                         && String.eqb (password_hash r) hashed) ;;
     match fetchone rows with
     | None => raise (HTTPException 401 "Invalid credentials")
     | Some _ =>
         let row := fetchone rows in
         v_id <- getitem row "id" ;;
         v_username <- getitem row "username" ;;
         v_email <- getitem row "email" ;;
         ret (VDict [("message", VStr "Login successful");
                     ("user", VDict [("id", v_id); ("username", v_username);
                                     ("email", v_email)])])
     end)
    close.

(** [GET /users] *)
Definition get_all_users : M value :=
  get_db ;;;
  try_finally
    (rows <- execute_select all_columns (fun _ => true) ;;
     views <- for_each
                (fun row =>
                   v_id <- getitem (Some row) "id" ;;
                   v_username <- getitem (Some row) "username" ;;
                   v_email <- getitem (Some row) "email" ;;
                   v_created_at <- getitem (Some row) "created_at" ;;
                   ret (VDict [("id", v_id); ("username", v_username);
                               ("email", v_email);
                               ("created_at", v_created_at)]))
                rows ;;
     ret (VList views))
    close.

(** [GET /users/{user_id}] *)
Definition get_user (user_id : Z) : M value :=
  get_db ;;;
  try_finally
    (rows <- execute_select_id all_columns user_id ;;
     match fetchone rows with
     | None => raise (HTTPException 404 "User not found")
     | Some _ =>
         let row := fetchone rows in
         v_id <- getitem row "id" ;;
         v_username <- getitem row "username" ;;
         v_email <- getitem row "email" ;;
         v_created_at <- getitem row "created_at" ;;
         ret (VDict [("id", v_id); ("username", v_username);
                     ("email", v_email); ("created_at", v_created_at)])
     end)
    close.

(** [DELETE /users/{user_id}] *)
Definition delete_user (user_id : Z) : M value :=
  get_db ;;;
  try_finally
    (rows <- execute_select_id ["id"] user_id ;;
     match fetchone rows with
     | None => raise (HTTPException 404 "User not found")
     | Some _ =>
         execute_delete user_id ;;;
         ret (VDict [("message",
                      VStr ("User " ++ str_int user_id
                            ++ " deleted successfully")%string)])
     end)
    close.

(* ================================================================= *)
(** ** Serving requests *)

(** A handler run on a database, with what the other connections do
    meanwhile, its own connection opening or not. *)
Definition run_on {A} (opening : option sqlite3_error) (m : M A)
    (others : list Slot) (d : Database) : Database * result A :=
  let (w, r) := m {| db := d; others := others; opening := opening |} in
  (db w, r).

(** The same with the connection opened; [run m [] d] is the handler
    left alone. *)
Definition run {A} (m : M A) (others : list Slot) (d : Database)
    : Database * result A :=
  run_on None m others d.

Inductive Request : Type :=
| Register (user : UserCreate.t) (utcnow : string)
| Login (credentials : UserLogin.t)
| ListAccounts
| GetAccount (user_id : Z)
| DeleteAccount (user_id : Z).

Definition handler (q : Request) : M value :=
  match q with
  | Register user utcnow => register_user user utcnow
  | Login credentials => login_user credentials
  | ListAccounts => get_all_users
  | GetAccount user_id => get_user user_id
  | DeleteAccount user_id => delete_user user_id
  end.

(** Requests served one after the other. *)
Definition serve (d : Database) (q : Request) : Database * result value :=
  run (handler q) [] d.

Fixpoint trace (d : Database) (qs : list Request)
    : list (Request * result value) :=
  match qs with
  | [] => []
  | q :: rest => (q, snd (serve d q)) :: trace (fst (serve d q)) rest
  end.

Fixpoint after (d : Database) (qs : list Request) : Database :=
  match qs with
  | [] => d
  | q :: rest => after (fst (serve d q)) rest
  end.

(** The outcomes the callers tell apart. *)
Definition DuplicateAccount : exn :=
  HTTPException 400 "Username or email already exists".
Definition InvalidCredentials : exn :=
  HTTPException 401 "Invalid credentials".
Definition NotFound : exn :=
  HTTPException 404 "User not found".

(** The public view of a row, as the handlers build it. *)
Definition view (r : Row) : value :=
  VDict [("id", VInt (id r)); ("username", VStr (username r));
         ("email", VStr (email r)); ("created_at", VStr (created_at r))].

Definition login_payload (r : Row) : value :=
  VDict [("message", VStr "Login successful");
         ("user", VDict [("id", VInt (id r)); ("username", VStr (username r));
                         ("email", VStr (email r))])].

Definition deleted_message (n : Z) : value :=
  VDict [("message",
          VStr ("User " ++ str_int n ++ " deleted successfully")%string)].

Definition view_id (v : value) : option Z :=
  match v with
  | VDict items =>
      match lookup "id" items with
      | Some (VInt n) => Some n
      | _ => None
      end
  | _ => None
  end.


(** The ids a history has issued: those of its successful registrations. *)
Definition issued (ev : Request * result value) : option Z :=
  match ev with
  | (Register _ _, Ok v) => view_id v
  | _ => None
  end.

Fixpoint issued_ids (evs : list (Request * result value)) : list Z :=
  match evs with
  | [] => []
  | ev :: rest =>
      match issued ev with
      | Some n => n :: issued_ids rest
      | None => issued_ids rest
      end
  end.

(** The accounts a history leaves, told from its outcomes alone: each
    successful registration adds the view it returned at the end, each
    successful deletion removes the view with its id. *)
Fixpoint ledger (evs : list (Request * result value)) (acc : list value)
    : list value :=
  match evs with
  | [] => acc
  | (Register _ _, Ok v) :: rest => ledger rest (acc ++ [v])
  | (DeleteAccount n, Ok _) :: rest =>
      ledger rest
        (filter (fun v => match view_id v with
                          | Some k => negb (k =? n)
                          | None => true
                          end) acc)
  | _ :: rest => ledger rest acc
  end.

(** Uniqueness of usernames and of emails among the live rows. *)
Definition unique_users (d : Database) : Prop :=
  NoDup (map username (users d)) /\ NoDup (map email (users d)).

(** The databases the service can ever hold: the empty table [init_db]
    creates, and what committed writes make of it. *)
Inductive reachable : Database -> Prop :=
| reachable_init : reachable (init_db None)
| reachable_write d w : reachable d -> reachable (apply_write d w).

(** The database as the first and the second statement of a handler
    find it. *)
Definition at_first (others : list Slot) (d : Database) : Database :=
  fold_left apply_write (writes (hd quiet others)) d.

Definition at_second (others : list Slot) (d : Database) : Database :=
  fold_left apply_write (writes (hd quiet (tl others))) (at_first others d).

(** The database as the third statement finds it, from what the second
    left. *)
Definition at_third (others : list Slot) (d : Database) : Database :=
  fold_left apply_write (writes (hd quiet (tl (tl others)))) d.

Definition taken (user : UserCreate.t) (d : Database) : bool :=
  existsb (fun r => String.eqb (username r) (UserCreate.username user)
                    || String.eqb (email r) (UserCreate.email user))
          (users d).



(** The three ways an [INSERT] ends. *)
Variant insert_spec (u e h c : string) (d : Database)
    : Database * result Z -> Prop :=
| insert_full :
    INT64_MAX <= Z.max (sqlite_sequence d) (max_rowid (users d)) ->
    insert_spec u e h c d
      (d, Raise (OperationalError "database or disk is full"))
| insert_dup_email r :
    In r (users d) -> email r = e ->
    insert_spec u e h c d
      (d, Raise (IntegrityError "UNIQUE constraint failed: users.email"))
| insert_dup_username r :
    In r (users d) -> username r = u ->
    (forall r', In r' (users d) -> email r' <> e) ->
    insert_spec u e h c d
      (d, Raise (IntegrityError
                   "UNIQUE constraint failed: users.username"))
| insert_done n :
    n = Z.max (sqlite_sequence d) (max_rowid (users d)) + 1 ->
    n <= INT64_MAX ->
    (forall r, In r (users d) -> email r <> e /\ username r <> u) ->
    insert_spec u e h c d
      ({| users := users d ++ [{| id := n; username := u; email := e;
                                  password_hash := h; created_at := c |}];
          sqlite_sequence := n |}, Ok n).

Definition new_row (user : UserCreate.t) (utcnow : string) (n : Z) : Row :=
  {| id := n; username := UserCreate.username user;
     email := UserCreate.email user;
     password_hash := hash_password (UserCreate.password user);
     created_at := utcnow |}.

Definition matches (credentials : UserLogin.t) (r : Row) : bool :=
  String.eqb (username r) (UserLogin.username credentials)
  && String.eqb (password_hash r)
                (hash_password (UserLogin.password credentials)).


(** The requests of the scenarios. *)
Definition fresh : Database := init_db None.

Definition alice : UserCreate.t :=
  {| UserCreate.username := "alice"; UserCreate.email := "a@x.com";
     UserCreate.password := "pw1" |}.

Definition alice_again : UserCreate.t :=
  {| UserCreate.username := "alice"; UserCreate.email := "b@x.com";
     UserCreate.password := "pw2" |}.

Definition bob : UserCreate.t :=
  {| UserCreate.username := "bob"; UserCreate.email := "b@y.com";
     UserCreate.password := "secret" |}.

Definition bob_login (password : string) : UserLogin.t :=
  {| UserLogin.username := "bob"; UserLogin.password := password |}.

Definition carol_login : UserLogin.t :=
  {| UserLogin.username := "carol"; UserLogin.password := "secret" |}.

Definition noon : string := "2024-01-01T12:00:00".

(** Two registrations of the same account, racing: the other one's
    [INSERT] is committed between this one's check and its own. *)
Definition racing : list Slot :=
  [quiet;
   {| writes := [WInsert "alice" "a@x.com" (hash_password "pw1") noon];
      fault := None |}].

Definition locked : list Slot :=
  [{| writes := [];
      fault := Some (Sqlite3 OperationalClass "database is locked") |}].

(** [GET /]: the health check.  It opens no connection. *)
Definition root : M value :=
  ret (VDict [("service", VStr "User Service"); ("status", VStr "running");
              ("version", VStr "1.0.0")]).

(** The credentials a registration can later log in with. *)
Definition credentials_of (user : UserCreate.t) : UserLogin.t :=
  {| UserLogin.username := UserCreate.username user;
     UserLogin.password := UserCreate.password user |}.

(** What [AUTOINCREMENT] keeps of the ids: they grow along the table,
    start at 1 and stay at or below [sqlite_sequence], itself within the
    64-bit range. *)
Definition ids_ok (d : Database) : Prop :=
  StronglySorted Z.lt (map id (users d)) /\
  Forall (fun r => 1 <= id r <= sqlite_sequence d) (users d) /\
  0 <= sqlite_sequence d <= INT64_MAX.

Definition hex_chars : list ascii :=
  list_ascii_of_string "0123456789abcdef".



(* ================================================================= *)
(** * Properties *)

Arguments hash_password : simpl never.
Arguments str_int : simpl never.

(** ** The digest on known inputs *)

Example sha256_empty :
  SHA256.hexdigest "" =
  "e3b0c44298fc1c149afbf4c8996fb92427ae41e4649b934ca495991b7852b855".
Proof. vm_compute. reflexivity. Qed.

Example sha256_abc :
  SHA256.hexdigest "abc" =
  "ba7816bf8f01cfea414140de5dae2223b00361a396177a9cb410ff61f20015ad".
Proof. vm_compute. reflexivity. Qed.

Example sha256_two_blocks :
  SHA256.hexdigest
    "aaaaaaaaaaaaaaaaaaaaaaaaaaaaaaaaaaaaaaaaaaaaaaaaaaaaaaaa" =
  "b35439a4ac6f0948b6d6f9e3c6af0f5f590ce20f1bde7090ef7970686ec6738a".
Proof. vm_compute. reflexivity. Qed.

(* ================================================================= *)
(** ** The statements *)

Section Statements.

Lemma max_rowid_ge (rs : list Row) : 0 <= max_rowid rs.
Proof. induction rs as [|r rs IH]; simpl; lia. Qed.

Lemma max_rowid_bound (rs : list Row) (r : Row) :
  In r rs -> id r <= max_rowid rs.
Proof.
  induction rs as [|r' rs IH]; simpl; [tauto|].
  intros [->|H]; [lia|]. specialize (IH H). lia.
Qed.

Lemma existsb_false_filter {A} (p : A -> bool) (l : list A) :
  existsb p l = false -> filter p l = [].
Proof.
  induction l as [|a l IH]; simpl; [reflexivity|].
  intros H. apply orb_false_iff in H as [Ha Hl]. rewrite Ha. auto.
Qed.

Lemma filter_nil_existsb {A} (p : A -> bool) (l : list A) :
  filter p l = [] -> existsb p l = false.
Proof.
  induction l as [|a l IH]; simpl; [reflexivity|].
  destruct (p a); [discriminate|]. auto.
Qed.

Lemma filter_everything {A} (l : list A) : filter (fun _ => true) l = l.
Proof. induction l as [|a l IH]; simpl; congruence. Qed.

Lemma filter_none {A} (p : A -> bool) (l : list A) :
  (forall a, In a l -> p a = false) -> filter p l = [].
Proof.
  induction l as [|a l IH]; simpl; intros H; [reflexivity|].
  rewrite (H a (or_introl eq_refl)). auto.
Qed.

Lemma existsb_eqb_false {A} (f : A -> string) (x : string) (l : list A) :
  existsb (fun a => String.eqb (f a) x) l = false ->
  forall a, In a l -> f a <> x.
Proof.
  intros H a Ha Heq.
  assert (existsb (fun a => String.eqb (f a) x) l = true) as Ht.
  { apply existsb_exists. exists a. split; [exact Ha|].
    now apply String.eqb_eq. }
  congruence.
Qed.

Lemma sql_insert_spec (u e h c : string) (d : Database) :
  insert_spec u e h c d (sql_insert u e h c d).
Proof.
  unfold sql_insert.
  destruct (Z.leb_spec INT64_MAX
              (Z.max (sqlite_sequence d) (max_rowid (users d))))
    as [Hfull|Hroom].
  - now apply insert_full.
  - destruct (existsb (fun r => String.eqb (email r) e) (users d)) eqn:He.
    + apply existsb_exists in He as (r & Hr & Heq).
      apply String.eqb_eq in Heq. now apply insert_dup_email with r.
    + destruct (existsb (fun r => String.eqb (username r) u) (users d))
        eqn:Hu.
      * apply existsb_exists in Hu as (r & Hr & Heq).
        apply String.eqb_eq in Heq.
        apply insert_dup_username with r; auto.
        now apply existsb_eqb_false.
      * apply insert_done; [reflexivity|lia|].
        intros r Hr. split.
        -- now apply (existsb_eqb_false _ _ _ He).
        -- now apply (existsb_eqb_false _ _ _ Hu).
Qed.

Lemma sql_insert_raise (u e h c : string) (d d' : Database) (x : exn) :
  sql_insert u e h c d = (d', Raise x) -> d' = d.
Proof.
  destruct (sql_insert_spec u e h c d); congruence.
Qed.

Lemma sql_insert_sequence (u e h c : string) (d : Database) :
  sqlite_sequence d <= sqlite_sequence (fst (sql_insert u e h c d)).
Proof.
  destruct (sql_insert_spec u e h c d); simpl; lia.
Qed.

Lemma apply_write_sequence (d : Database) (w : Write) :
  sqlite_sequence d <= sqlite_sequence (apply_write d w).
Proof.
  destruct w; simpl; [apply sql_insert_sequence|lia].
Qed.

Lemma writes_sequence (ws : list Write) (d : Database) :
  sqlite_sequence d <= sqlite_sequence (fold_left apply_write ws d).
Proof.
  revert d. induction ws as [|w ws IH]; intros d; simpl; [lia|].
  specialize (IH (apply_write d w)).
  pose proof (apply_write_sequence d w). lia.
Qed.

(** A write of another connection leaves the rows it finds as they
    are or deletes them; the rows it adds have new ids. *)
Lemma apply_write_rows (d : Database) (w : Write) (r : Row) :
  In r (users (apply_write d w)) ->
  In r (users d) \/ sqlite_sequence d < id r.
Proof.
  destruct w as [u e h c|n]; simpl.
  - destruct (sql_insert_spec u e h c d); simpl; auto.
    intros Hin. apply in_app_or in Hin as [Hin|[<-|[]]]; auto.
    right. simpl. lia.
  - intros Hin. apply filter_In in Hin. tauto.
Qed.

Lemma writes_rows (ws : list Write) (d : Database) (r : Row) :
  In r (users (fold_left apply_write ws d)) ->
  In r (users d) \/ sqlite_sequence d < id r.
Proof.
  revert d. induction ws as [|w ws IH]; intros d; simpl; auto.
  intros Hin. apply IH in Hin as [Hin|Hlt].
  - now apply apply_write_rows in Hin.
  - right. pose proof (apply_write_sequence d w). lia.
Qed.

(** A row stays until its id is deleted. *)
Lemma apply_write_keeps (d : Database) (w : Write) (r : Row) :
  In r (users d) -> w <> WDelete (id r) -> In r (users (apply_write d w)).
Proof.
  intros Hin Hw. destruct w as [u e h c|n]; simpl.
  - destruct (sql_insert_spec u e h c d); simpl; auto.
    apply in_or_app. now left.
  - apply filter_In. split; [exact Hin|].
    apply negb_true_iff, Z.eqb_neq. congruence.
Qed.

Lemma writes_keep (ws : list Write) (d : Database) (r : Row) :
  In r (users d) -> ~ In (WDelete (id r)) ws ->
  In r (users (fold_left apply_write ws d)).
Proof.
  revert d. induction ws as [|w ws IH]; intros d Hin Hws; simpl; auto.
  apply IH.
  - apply apply_write_keeps; [exact Hin|].
    intros ->. apply Hws. now left.
  - intros H. apply Hws. now right.
Qed.

End Statements.

(* ================================================================= *)
(** ** The handlers, statement by statement *)

Ltac unfold_handler :=
  unfold run, run_on, serve, handler, register_user, register_try,
    register_except, login_user, get_all_users,
    get_user, delete_user, try_finally, try_except, close,
    execute_select_id, execute_select, execute_insert, execute_delete,
    statement, of_result, bind, get_db, ret, raise.

Section Handlers.

Lemma bind_int_ok (n : Z) :
  INT64_MIN <= n <= INT64_MAX -> bind_int n = Ok n.
Proof.
  intros [Hlo Hhi]. unfold bind_int.
  apply Z.leb_le in Hlo, Hhi. now rewrite Hlo, Hhi.
Qed.

Lemma bind_int_inv (n k : Z) :
  bind_int n = Ok k -> k = n /\ INT64_MIN <= n <= INT64_MAX.
Proof.
  unfold bind_int.
  destruct (Z.leb_spec INT64_MIN n), (Z.leb_spec n INT64_MAX); simpl;
    intros Hb; inversion Hb; lia.
Qed.

Lemma bind_int_raise (n : Z) (e : exn) :
  bind_int n = Raise e ->
  e = OverflowError "Python int too large to convert to SQLite INTEGER"
  /\ (n < INT64_MIN \/ INT64_MAX < n).
Proof.
  unfold bind_int.
  destruct (Z.leb_spec INT64_MIN n), (Z.leb_spec n INT64_MAX); simpl;
    intros Hb; inversion Hb; split; auto; lia.
Qed.

Lemma fetchone_select (cols : list string) (p : Row -> bool)
    (d : Database) :
  fetchone (sql_select cols p d) =
  match filter p (users d) with
  | [] => None
  | r :: _ => Some (project cols r)
  end.
Proof.
  unfold fetchone, sql_select. now destruct (filter p (users d)).
Qed.

(** [GET /users/{user_id}] *)
Lemma get_user_run (n : Z) (os : list Slot) (d : Database) :
  run (get_user n) os d =
  match bind_int n with
  | Raise e => (d, Raise e)
  | Ok k =>
      match fault (hd quiet os) with
      | Some f => (at_first os d, Raise (sqlite3_exn f))
      | None =>
          (at_first os d,
           match filter (fun r => id r =? k) (users (at_first os d)) with
           | [] => Raise NotFound
           | r :: _ => Ok (view r)
           end)
      end
  end.
Proof.
  unfold at_first. unfold_handler.
  destruct (bind_int n) as [k|e]; cbn [db others opening]; [|reflexivity].
  destruct (fault (hd quiet os)); [reflexivity|].
  rewrite fetchone_select.
  destruct (filter _ (users _)) as [|r rest]; reflexivity.
Qed.

(** [DELETE /users/{user_id}] *)
Lemma delete_user_run (n : Z) (os : list Slot) (d : Database) :
  run (delete_user n) os d =
  match bind_int n with
  | Raise e => (d, Raise e)
  | Ok k =>
      match fault (hd quiet os) with
      | Some f => (at_first os d, Raise (sqlite3_exn f))
      | None =>
          match filter (fun r => id r =? k) (users (at_first os d)) with
          | [] => (at_first os d, Raise NotFound)
          | _ :: _ =>
              match fault (hd quiet (tl os)) with
              | Some f => (at_second os d, Raise (sqlite3_exn f))
              | None =>
                  (sql_delete k (at_second os d), Ok (deleted_message n))
              end
          end
      end
  end.
Proof.
  unfold at_second, at_first. unfold_handler.
  destruct (bind_int n) as [k|e]; cbn [db others opening]; [|reflexivity].
  destruct (fault (hd quiet os)); [reflexivity|].
  rewrite fetchone_select.
  destruct (filter _ (users _)) as [|r rest]; [reflexivity|].
  cbn [db others opening].
  destruct (fault (hd quiet (tl os))); reflexivity.
Qed.

(** [POST /users/login] *)
Lemma login_user_run (c : UserLogin.t) (os : list Slot) (d : Database) :
  run (login_user c) os d =
  match fault (hd quiet os) with
  | Some f => (at_first os d, Raise (sqlite3_exn f))
  | None =>
      (at_first os d,
       match filter (matches c) (users (at_first os d)) with
       | [] => Raise InvalidCredentials
       | r :: _ => Ok (login_payload r)
       end)
  end.
Proof.
  unfold at_first. unfold_handler. cbn [db others opening].
  destruct (fault (hd quiet os)); [reflexivity|].
  rewrite fetchone_select. fold (matches c).
  destruct (filter _ (users _)) as [|r rest]; reflexivity.
Qed.

Lemma getitem_view (r : Row) (w : World) :
  (v_id <- getitem (Some (project all_columns r)) "id" ;;
   v_username <- getitem (Some (project all_columns r)) "username" ;;
   v_email <- getitem (Some (project all_columns r)) "email" ;;
   v_created_at <- getitem (Some (project all_columns r)) "created_at" ;;
   ret (VDict [("id", v_id); ("username", v_username);
               ("email", v_email); ("created_at", v_created_at)])) w
  = (w, Ok (view r)).
Proof. reflexivity. Qed.

Lemma for_each_views (rows : list Row) (w : World) :
  for_each
    (fun row =>
       v_id <- getitem (Some row) "id" ;;
       v_username <- getitem (Some row) "username" ;;
       v_email <- getitem (Some row) "email" ;;
       v_created_at <- getitem (Some row) "created_at" ;;
       ret (VDict [("id", v_id); ("username", v_username);
                   ("email", v_email); ("created_at", v_created_at)]))
    (map (project all_columns) rows) w
  = (w, Ok (map view rows)).
Proof.
  induction rows as [|r rows IH]; [reflexivity|].
  cbn [map for_each]. unfold bind at 1. cbn beta.
  rewrite getitem_view. unfold bind at 1. now rewrite IH.
Qed.

(** [GET /users] *)
Lemma get_all_users_run (os : list Slot) (d : Database) :
  run get_all_users os d =
  match fault (hd quiet os) with
  | Some f => (at_first os d, Raise (sqlite3_exn f))
  | None => (at_first os d, Ok (VList (map view (users (at_first os d)))))
  end.
Proof.
  unfold at_first.
  unfold run, run_on, get_all_users, try_finally, close, execute_select,
    statement.
  unfold bind at 1. unfold get_db at 1. cbn [db others opening].
  unfold bind at 1. cbn [db others opening].
  destruct (fault (hd quiet os)); [reflexivity|].
  unfold bind at 1. unfold sql_select.
  rewrite for_each_views. cbn. now rewrite filter_everything.
Qed.

(** [POST /users/register], with what other connections do around its
    three statements. *)
Lemma register_user_run (u : UserCreate.t) (t : string)
    (os : list Slot) (d : Database) :
  run (register_user u t) os d =
  let d1 := at_first os d in
  match fault (hd quiet os) with
  | Some f => (d1, Raise (HTTPException 500 (str (sqlite3_exn f))))
  | None =>
      if taken u d1 then (d1, Raise DuplicateAccount)
      else
        let d2 := at_second os d in
        match fault (hd quiet (tl os)) with
        | Some f => (d2, Raise (HTTPException 500 (str (sqlite3_exn f))))
        | None =>
            match sql_insert (UserCreate.username u) (UserCreate.email u)
                    (hash_password (UserCreate.password u)) t d2 with
            | (_, Raise e) => (d2, Raise (HTTPException 500 (str e)))
            | (d3, Ok n) =>
                let d4 := at_third os d3 in
                match fault (hd quiet (tl (tl os))) with
                | Some f => (d4, Raise (HTTPException 500 (str (sqlite3_exn f))))
                | None =>
                    match filter (fun r => id r =? n) (users d4) with
                    | [] =>
                        (d4, Raise (HTTPException 500
                               "'NoneType' object is not subscriptable"))
                    | r :: _ => (d4, Ok (view r))
                    end
                end
            end
        end
  end.
Proof.
  unfold at_second, at_third, at_first, taken.
  unfold_handler. cbn [db others opening].
  destruct (fault (hd quiet os)) as [[[] m]|]; [reflexivity..|].
  rewrite fetchone_select.
  set (d1 := fold_left apply_write (writes (hd quiet os)) d).
  set (p := fun r => String.eqb (username r) (UserCreate.username u)
                     || String.eqb (email r) (UserCreate.email u)).
  destruct (existsb p (users d1)) eqn:Hp.
  - destruct (filter p (users d1)) eqn:Hf.
    + apply filter_nil_existsb in Hf. congruence.
    + reflexivity.
  - rewrite (existsb_false_filter _ _ Hp). cbn [db others opening].
    destruct (fault (hd quiet (tl os))) as [[[] m]|]; [reflexivity..|].
    set (d2 := fold_left apply_write (writes (hd quiet (tl os))) d1).
    destruct (sql_insert_spec (UserCreate.username u) (UserCreate.email u)
                (hash_password (UserCreate.password u)) t d2)
      as [Hfull|r Hr He|r Hr Hu Hne|n Hn Hmax Hfree]; try reflexivity.
    rewrite bind_int_ok.
    2:{ pose proof (max_rowid_ge (users d2)). unfold INT64_MIN. lia. }
    cbn [db others opening].
    destruct (fault (hd quiet (tl (tl os)))) as [[[] m]|]; [reflexivity..|].
    rewrite fetchone_select.
    destruct (filter _ (users _)) as [|r rest]; reflexivity.
Qed.

(** X20: whatever other connections commit around its three
    statements, a registration that succeeds returns the view of the
    row it inserted, with the id the [INSERT] gave it, above the
    [sqlite_sequence] it found, and that row is still in the table when
    it returns. *)
Lemma register_user_ok (u : UserCreate.t) (t : string) (os : list Slot)
    (d d' : Database) (v : value) :
  run (register_user u t) os d = (d', Ok v) ->
  exists n,
    v = view (new_row u t n) /\ In (new_row u t n) (users d') /\
    sqlite_sequence (at_second os d) < n.
Proof.
  rewrite register_user_run. cbv zeta.
  destruct (fault (hd quiet os)); [discriminate|].
  destruct (taken u (at_first os d)); [discriminate|].
  destruct (fault (hd quiet (tl os))); [discriminate|].
  destruct (sql_insert_spec (UserCreate.username u) (UserCreate.email u)
              (hash_password (UserCreate.password u)) t (at_second os d))
    as [Hfull|r Hr He|r Hr Hu Hne|n Hn Hmax Hfree]; try discriminate.
  fold (new_row u t n).
  set (d3 := {| users := users (at_second os d) ++ [new_row u t n];
                sqlite_sequence := n |}).
  destruct (fault (hd quiet (tl (tl os)))); [discriminate|].
  destruct (filter _ (users (at_third os d3))) as [|r rest] eqn:Hf;
    [discriminate|].
  intros H. inversion H; subst d' v. exists n.
  assert (In r (filter (fun r' => id r' =? n) (users (at_third os d3))))
    as Hin by (rewrite Hf; now left).
  apply filter_In in Hin as [Hin Hid]. apply Z.eqb_eq in Hid.
  assert (r = new_row u t n) as ->.
  { unfold at_third in Hin. apply writes_rows in Hin as [Hin|Hlt].
    - cbn [d3 users] in Hin. apply in_app_or in Hin as [Hin|[<-|[]]].
      + apply max_rowid_bound in Hin. lia.
      + reflexivity.
    - cbn [d3 sqlite_sequence] in Hlt. lia. }
  repeat split; [exact Hin|lia].
Qed.

End Handlers.

(* ================================================================= *)
(** ** Requests served one after the other *)

Section Alone.

Lemma serve_get (n : Z) (d : Database) :
  serve d (GetAccount n) =
  (d, match bind_int n with
      | Raise e => Raise e
      | Ok k =>
          match filter (fun r => id r =? k) (users d) with
          | [] => Raise NotFound
          | r :: _ => Ok (view r)
          end
      end).
Proof.
  unfold serve, handler. rewrite get_user_run.
  now destruct (bind_int n).
Qed.

Lemma serve_delete (n : Z) (d : Database) :
  serve d (DeleteAccount n) =
  match bind_int n with
  | Raise e => (d, Raise e)
  | Ok k =>
      match filter (fun r => id r =? k) (users d) with
      | [] => (d, Raise NotFound)
      | _ :: _ => (sql_delete k d, Ok (deleted_message n))
      end
  end.
Proof.
  unfold serve, handler. now rewrite delete_user_run.
Qed.

Lemma serve_login (c : UserLogin.t) (d : Database) :
  serve d (Login c) =
  (d, match filter (matches c) (users d) with
      | [] => Raise InvalidCredentials
      | r :: _ => Ok (login_payload r)
      end).
Proof.
  unfold serve, handler. now rewrite login_user_run.
Qed.

Lemma serve_list (d : Database) :
  serve d ListAccounts = (d, Ok (VList (map view (users d)))).
Proof.
  unfold serve, handler. now rewrite get_all_users_run.
Qed.

Lemma filter_new_row (rs : list Row) (r : Row) :
  max_rowid rs < id r ->
  filter (fun r' => id r' =? id r) (rs ++ [r]) = [r].
Proof.
  intros Hlt. rewrite filter_app. simpl. rewrite Z.eqb_refl.
  rewrite filter_none; [reflexivity|].
  intros r' Hr'. apply max_rowid_bound in Hr'. apply Z.eqb_neq. lia.
Qed.

Lemma serve_register (u : UserCreate.t) (t : string) (d : Database) :
  serve d (Register u t) =
  if taken u d then (d, Raise DuplicateAccount)
  else
    match sql_insert (UserCreate.username u) (UserCreate.email u)
            (hash_password (UserCreate.password u)) t d with
    | (_, Raise e) => (d, Raise (HTTPException 500 (str e)))
    | (d', Ok n) => (d', Ok (view (new_row u t n)))
    end.
Proof.
  unfold serve, handler. rewrite register_user_run.
  cbn [hd tl quiet fault at_first at_second at_third writes fold_left].
  destruct (taken u d); [reflexivity|].
  destruct (sql_insert_spec (UserCreate.username u) (UserCreate.email u)
              (hash_password (UserCreate.password u)) t d)
    as [Hfull|r Hr He|r Hr Hu Hne|n Hn Hmax Hfree]; try reflexivity.
  cbn [users].
  change ({| id := n; username := UserCreate.username u;
             email := UserCreate.email u;
             password_hash := hash_password (UserCreate.password u);
             created_at := t |}) with (new_row u t n).
  change n with (id (new_row u t n)) at 1.
  rewrite filter_new_row; [reflexivity|]. simpl. lia.
Qed.

(** What a successful registration leaves. *)
Lemma serve_register_ok (u : UserCreate.t) (t : string)
    (d d' : Database) (v : value) :
  serve d (Register u t) = (d', Ok v) ->
  exists n,
    v = view (new_row u t n) /\
    users d' = users d ++ [new_row u t n] /\
    sqlite_sequence d' = n /\
    sqlite_sequence d < n /\ max_rowid (users d) < n /\
    taken u d = false.
Proof.
  rewrite serve_register. destruct (taken u d); [discriminate|].
  destruct (sql_insert_spec (UserCreate.username u) (UserCreate.email u)
              (hash_password (UserCreate.password u)) t d)
    as [Hfull|r Hr He|r Hr Hu Hne|n Hn Hmax Hfree]; try discriminate.
  intros H. inversion H; subst d' v. exists n.
  repeat split; try reflexivity; lia.
Qed.

Lemma serve_raise (q : Request) (d d' : Database) (e : exn) :
  serve d q = (d', Raise e) -> d' = d.
Proof.
  destruct q as [u t|c| |n|n].
  - rewrite serve_register. destruct (taken u d); [congruence|].
    destruct (sql_insert _ _ _ _ d) as [d'' [k|x]]; congruence.
  - rewrite serve_login. congruence.
  - rewrite serve_list. congruence.
  - rewrite serve_get. congruence.
  - rewrite serve_delete. destruct (bind_int n); [|congruence].
    destruct (filter _ (users d)); congruence.
Qed.

(** Only a registration adds a row. *)
Lemma serve_no_new_row (q : Request) (d : Database) (r : Row) :
  (forall u t, q <> Register u t) ->
  In r (users (fst (serve d q))) -> In r (users d).
Proof.
  intros Hq. destruct q as [u t|c| |n|n].
  - now destruct (Hq u t).
  - now rewrite serve_login.
  - now rewrite serve_list.
  - now rewrite serve_get.
  - rewrite serve_delete. destruct (bind_int n); [|auto].
    destruct (filter _ (users d)); [auto|].
    simpl. intros Hin. apply filter_In in Hin. tauto.
Qed.

Lemma serve_sequence (q : Request) (d : Database) :
  sqlite_sequence d <= sqlite_sequence (fst (serve d q)).
Proof.
  destruct q as [u t|c| |n|n].
  - rewrite serve_register. destruct (taken u d); [simpl; lia|].
    destruct (sql_insert_spec (UserCreate.username u) (UserCreate.email u)
                (hash_password (UserCreate.password u)) t d); simpl; lia.
  - rewrite serve_login. simpl. lia.
  - rewrite serve_list. simpl. lia.
  - rewrite serve_get. simpl. lia.
  - rewrite serve_delete. destruct (bind_int n); [|simpl; lia].
    destruct (filter _ (users d)); simpl; lia.
Qed.

End Alone.

(* ================================================================= *)
(** ** Login *)

Section Login.

Lemma matches_iff (c : UserLogin.t) (r : Row) :
  matches c r = true <->
  username r = UserLogin.username c /\
  password_hash r = hash_password (UserLogin.password c).
Proof.
  unfold matches. rewrite andb_true_iff, !String.eqb_eq. tauto.
Qed.

(** C4: the password hash is a function of the plaintext, and a login
    succeeds exactly when some live account has the given username and
    stores the hash of the given password; any other login fails with
    [InvalidCredentials]. *)
Theorem login_succeeds_iff_hash_matches (d : Database) (c : UserLogin.t) :
  (forall p q : string, p = q -> hash_password p = hash_password q) /\
  ((exists v, snd (serve d (Login c)) = Ok v) <->
   (exists r, In r (users d) /\
              username r = UserLogin.username c /\
              password_hash r = hash_password (UserLogin.password c))) /\
  ((forall v, snd (serve d (Login c)) <> Ok v) ->
   snd (serve d (Login c)) = Raise InvalidCredentials).
Proof.
  split; [now intros p q ->|].
  rewrite serve_login. simpl.
  destruct (filter (matches c) (users d)) as [|r rest] eqn:Hf.
  - split; [|reflexivity]. split.
    + intros [v Hv]. discriminate.
    + intros (r & Hin & Hu & Hh).
      assert (In r (filter (matches c) (users d))) as Hr.
      { apply filter_In. split; [exact Hin|]. now apply matches_iff. }
      rewrite Hf in Hr. destruct Hr.
  - split.
    + split; [|now exists (login_payload r)].
      intros _. exists r.
      assert (In r (filter (matches c) (users d))) as Hr
        by (rewrite Hf; now left).
      apply filter_In in Hr as [Hin Hm]. apply matches_iff in Hm.
      tauto.
    + intros Hno. now destruct (Hno (login_payload r)).
Qed.

Lemma login_succeeds_iff_hash_matches_witness :
  hash_password "secret" = hash_password "secret" /\
  (exists v,
     snd (serve (after fresh [Register bob noon]) (Login (bob_login "secret")))
     = Ok v) /\
  snd (serve (after fresh [Register bob noon]) (Login (bob_login "wrong")))
  = Raise InvalidCredentials.
Proof.
  split; [|split].
  - exact (proj1 (login_succeeds_iff_hash_matches fresh carol_login)
             "secret" "secret" eq_refl).
  - apply (proj1 (proj2 (login_succeeds_iff_hash_matches
                           (after fresh [Register bob noon])
                           (bob_login "secret")))).
    exists (new_row bob noon 1). vm_compute. auto.
  - apply (proj2 (proj2 (login_succeeds_iff_hash_matches
                           (after fresh [Register bob noon])
                           (bob_login "wrong")))).
    intros v. vm_compute. discriminate.
Defined.

(** C6: a login that fails, fails with the one [InvalidCredentials]
    outcome and leaves the database as it was, whether no account has
    the username or one has it with another password hash. *)
Theorem login_failure_is_uniform (d1 d2 : Database) (c1 c2 : UserLogin.t)
    (e1 e2 : exn) :
  snd (serve d1 (Login c1)) = Raise e1 ->
  snd (serve d2 (Login c2)) = Raise e2 ->
  e1 = InvalidCredentials /\ e2 = e1 /\
  fst (serve d1 (Login c1)) = d1 /\ fst (serve d2 (Login c2)) = d2.
Proof.
  rewrite !serve_login. simpl.
  destruct (filter (matches c1) (users d1)); [|discriminate].
  destruct (filter (matches c2) (users d2)); [|discriminate].
  intros H1 H2. inversion H1. inversion H2. auto.
Qed.

Lemma login_failure_is_uniform_witness :
  let d := after fresh [Register bob noon] in
  existsb (fun r => String.eqb (username r) "carol") (users d) = false /\
  existsb (fun r => String.eqb (username r) "bob") (users d) = true /\
  snd (serve d (Login carol_login)) = Raise InvalidCredentials /\
  snd (serve d (Login (bob_login "wrong"))) = Raise InvalidCredentials /\
  fst (serve d (Login carol_login)) = d /\
  fst (serve d (Login (bob_login "wrong"))) = d.
Proof.
  intros d.
  assert (snd (serve d (Login carol_login)) = Raise InvalidCredentials)
    as H1 by (vm_compute; reflexivity).
  assert (snd (serve d (Login (bob_login "wrong")))
          = Raise InvalidCredentials)
    as H2 by (vm_compute; reflexivity).
  split; [vm_compute; reflexivity|]. split; [vm_compute; reflexivity|].
  split; [exact H1|]. split; [exact H2|].
  exact (proj2 (proj2 (login_failure_is_uniform d d carol_login
                         (bob_login "wrong") _ _ H1 H2))).
Defined.

End Login.

(* ================================================================= *)
(** ** Histories *)

Section Histories.

Lemma view_id_view (r : Row) : view_id (view r) = Some (id r).
Proof. reflexivity. Qed.

Lemma after_sequence (qs : list Request) (d : Database) :
  sqlite_sequence d <= sqlite_sequence (after d qs).
Proof.
  revert d. induction qs as [|q qs IH]; intros d; simpl; [lia|].
  specialize (IH (fst (serve d q))). pose proof (serve_sequence q d). lia.
Qed.

Lemma after_no_new_row (qs : list Request) (d : Database) (r : Row) :
  (forall u t, ~ In (Register u t) qs) ->
  In r (users (after d qs)) -> In r (users d).
Proof.
  revert d. induction qs as [|q qs IH]; intros d Hqs; simpl; auto.
  intros Hin. apply (serve_no_new_row q).
  - intros u t ->. apply (Hqs u t). now left.
  - apply IH; [|exact Hin]. intros u t H. apply (Hqs u t). now right.
Qed.

(** Every row a history leaves was there before it or carries an id the
    history issued. *)
Lemma after_rows_issued (qs : list Request) (d : Database) (r : Row) :
  In r (users (after d qs)) ->
  In r (users d) \/ In (id r) (issued_ids (trace d qs)).
Proof.
  revert d. induction qs as [|q qs IH]; intros d; simpl; auto.
  intros Hin. apply IH in Hin.
  destruct q as [u t|c| |n|n].
  - destruct (serve d (Register u t)) as [d' [v|e]] eqn:Hs; simpl in *.
    + apply serve_register_ok in Hs
        as (k & -> & Hrows & Hseq & _).
      rewrite view_id_view. simpl. rewrite Hrows in Hin.
      destruct Hin as [Hin|Hin]; [|auto].
      apply in_app_or in Hin as [Hin|[<-|[]]]; auto.
    + apply serve_raise in Hs as ->. exact Hin.
  - destruct Hin as [Hin|Hin]; [|auto]. left.
    now apply (serve_no_new_row (Login c)) in Hin.
  - destruct Hin as [Hin|Hin]; [|auto]. left.
    now apply (serve_no_new_row ListAccounts) in Hin.
  - destruct Hin as [Hin|Hin]; [|auto]. left.
    now apply (serve_no_new_row (GetAccount n)) in Hin.
  - destruct Hin as [Hin|Hin]; [|auto]. left.
    now apply (serve_no_new_row (DeleteAccount n)) in Hin.
Qed.

(** The ids a history issues lie above the sequence it starts from, at
    or below the one it ends with, and come in increasing order. *)
Lemma issued_ids_bounds (qs : list Request) (d : Database) :
  Forall (fun n => sqlite_sequence d < n
                   /\ n <= sqlite_sequence (after d qs))
         (issued_ids (trace d qs)).
Proof.
  revert d. induction qs as [|q qs IH]; intros d; simpl; [constructor|].
  specialize (IH (fst (serve d q))).
  pose proof (serve_sequence q d) as Hmono.
  assert (Forall (fun n => sqlite_sequence d < n
                           /\ n <= sqlite_sequence
                                     (after (fst (serve d q)) qs))
                 (issued_ids (trace (fst (serve d q)) qs))) as Hrest.
  { eapply Forall_impl; [|exact IH]. simpl. intros n Hn. lia. }
  destruct q as [u t|c| |n|n]; try exact Hrest.
  destruct (serve d (Register u t)) as [d' [v|e]] eqn:Hs; simpl in *;
    [|exact Hrest].
  apply serve_register_ok in Hs as (k & -> & Hrows & Hseq & Hlt & _).
  rewrite view_id_view. simpl. constructor; [|exact Hrest].
  pose proof (after_sequence qs d'). lia.
Qed.

Lemma issued_ids_sorted (qs : list Request) (d : Database) :
  StronglySorted Z.lt (issued_ids (trace d qs)).
Proof.
  revert d. induction qs as [|q qs IH]; intros d; simpl; [constructor|].
  destruct q as [u t|c| |n|n]; try apply IH.
  destruct (serve d (Register u t)) as [d' [v|e]] eqn:Hs; simpl;
    [|apply IH].
  apply serve_register_ok in Hs as (k & -> & Hrows & Hseq & Hlt & _).
  rewrite view_id_view. simpl. constructor; [apply IH|].
  eapply Forall_impl; [|apply issued_ids_bounds]. simpl. intros n Hn. lia.
Qed.

Lemma map_view_filter (rs : list Row) (n : Z) :
  map view (filter (fun r => negb (id r =? n)) rs) =
  filter (fun v => match view_id v with
                   | Some k => negb (k =? n)
                   | None => true
                   end) (map view rs).
Proof.
  induction rs as [|r rs IH]; [reflexivity|].
  cbn [filter map]. rewrite view_id_view.
  destruct (negb (id r =? n)); cbn [map]; now rewrite IH.
Qed.

(** The views of the live rows are the ledger of the history. *)
Lemma ledger_users (qs : list Request) (d : Database) :
  map view (users (after d qs)) = ledger (trace d qs) (map view (users d)).
Proof.
  revert d. induction qs as [|q qs IH]; intros d; [reflexivity|].
  cbn [after trace]. rewrite IH.
  destruct q as [u t|c| |n|n].
  - destruct (serve d (Register u t)) as [d' [v|e]] eqn:Hs;
      cbn [fst snd ledger].
    + apply serve_register_ok in Hs as (k & -> & Hrows & _).
      now rewrite Hrows, map_app.
    + now apply serve_raise in Hs as ->.
  - rewrite serve_login. reflexivity.
  - rewrite serve_list. reflexivity.
  - rewrite serve_get. reflexivity.
  - rewrite serve_delete.
    destruct (bind_int n) as [k|e] eqn:Hb; [|reflexivity].
    apply bind_int_inv in Hb as [-> _].
    destruct (filter _ (users d)); [reflexivity|].
    cbn [fst snd ledger sql_delete users]. now rewrite map_view_filter.
Qed.

End Histories.

(* ================================================================= *)
(** ** Lookup, deletion and listing *)

Section Accounts.

(** C7: once [DeleteAccount n] has succeeded, [GetAccount n] answers
    [NotFound], straight away and after any further requests none of
    which is a registration. *)
Theorem deleted_then_not_found (n : Z) (d d' : Database) (v : value)
    (qs : list Request) :
  serve d (DeleteAccount n) = (d', Ok v) ->
  (forall u t, ~ In (Register u t) qs) ->
  snd (serve (after d' qs) (GetAccount n)) = Raise NotFound.
Proof.
  rewrite serve_delete, serve_get.
  destruct (bind_int n) as [k|e] eqn:Hb; [|discriminate].
  apply bind_int_inv in Hb as [-> _].
  destruct (filter _ (users d)) as [|r0 rest]; [discriminate|].
  intros H Hqs. inversion H; subst d' v. cbn [snd].
  rewrite filter_none; [reflexivity|].
  intros r Hr. apply after_no_new_row in Hr; [|exact Hqs].
  simpl in Hr. apply filter_In in Hr as [_ Hr].
  now apply negb_true_iff in Hr.
Qed.

Lemma deleted_then_not_found_witness :
  let d := after fresh [Register alice noon; Register bob noon] in
  snd (serve d (GetAccount 1)) = Ok (view (new_row alice noon 1)) /\
  snd (serve d (DeleteAccount 1)) = Ok (deleted_message 1) /\
  snd (serve (after (fst (serve d (DeleteAccount 1)))
                [Login (bob_login "secret"); DeleteAccount 2; ListAccounts])
         (GetAccount 1)) = Raise NotFound.
Proof.
  intros d. split; [vm_compute; reflexivity|].
  split; [vm_compute; reflexivity|].
  apply (deleted_then_not_found 1 d (fst (serve d (DeleteAccount 1)))
           (deleted_message 1)).
  - vm_compute. reflexivity.
  - intros u t [H|[H|[H|[]]]]; discriminate.
Defined.

(** C8: on every database [ListAccounts] returns the public views of
    the live rows in table order, and after any history that is the
    ledger of the history: the views its registrations returned, in the
    order they were created, less the ones deleted since. *)
Theorem list_accounts_in_creation_order :
  (forall d : Database,
     serve d ListAccounts = (d, Ok (VList (map view (users d))))) /\
  (forall qs : list Request,
     snd (serve (after fresh qs) ListAccounts)
     = Ok (VList (ledger (trace fresh qs) []))).
Proof.
  split; [exact serve_list|].
  intros qs. rewrite serve_list. cbn [snd].
  now rewrite ledger_users.
Qed.

Example list_after_two_registrations :
  snd (serve (after fresh [Register alice noon; Register bob noon])
         ListAccounts)
  = Ok (VList [view (new_row alice noon 1); view (new_row bob noon 2)]).
Proof. vm_compute. reflexivity. Qed.

(** C9, for the ids SQLite can hold: an id in the signed 64-bit range
    that no registration of the history has issued is [NotFound] for
    [GetAccount] and for [DeleteAccount], and neither changes the
    database. *)
Theorem never_issued_not_found (qs : list Request) (n : Z) :
  ~ In n (issued_ids (trace fresh qs)) ->
  INT64_MIN <= n <= INT64_MAX ->
  serve (after fresh qs) (GetAccount n) = (after fresh qs, Raise NotFound) /\
  serve (after fresh qs) (DeleteAccount n)
  = (after fresh qs, Raise NotFound).
Proof.
  intros Hn Hrange. rewrite serve_get, serve_delete.
  rewrite (bind_int_ok n Hrange).
  rewrite filter_none; [split; reflexivity|].
  intros r Hr. apply Z.eqb_neq. intros <-.
  apply after_rows_issued in Hr as [[]|Hr]. now apply Hn.
Qed.

Lemma never_issued_not_found_witness :
  let qs := [Register alice noon; DeleteAccount 1] in
  serve (after fresh qs) (GetAccount 999) = (after fresh qs, Raise NotFound)
  /\ serve (after fresh qs) (DeleteAccount 999)
     = (after fresh qs, Raise NotFound).
Proof.
  apply never_issued_not_found.
  - vm_compute. intros [H|[]]. discriminate.
  - vm_compute. split; discriminate.
Defined.

(** An id beyond the 64-bit range cannot be bound to the statement:
    both handlers raise [OverflowError], which nothing catches, and the
    database is left as it was. *)
Lemma out_of_range_id_raises (d : Database) (n : Z) :
  n < INT64_MIN \/ INT64_MAX < n ->
  exists e,
    e = OverflowError "Python int too large to convert to SQLite INTEGER" /\
    serve d (GetAccount n) = (d, Raise e) /\
    serve d (DeleteAccount n) = (d, Raise e).
Proof.
  intros Hn. rewrite serve_get, serve_delete.
  destruct (bind_int n) as [k|e] eqn:Hb.
  - apply bind_int_inv in Hb. lia.
  - apply bind_int_raise in Hb as [-> _]. eauto.
Qed.

(** C9 as stated fails at [2 ^ 63], an id no registration can have
    issued: neither handler answers [NotFound]. *)
Lemma huge_id_is_not_not_found :
  ~ In (2 ^ 63) (issued_ids (trace fresh [])) /\
  snd (serve (after fresh []) (GetAccount (2 ^ 63)))
  = Raise (OverflowError
             "Python int too large to convert to SQLite INTEGER") /\
  snd (serve (after fresh []) (GetAccount (2 ^ 63))) <> Raise NotFound /\
  snd (serve (after fresh []) (DeleteAccount (2 ^ 63))) <> Raise NotFound.
Proof.
  split; [intros []|].
  split; [vm_compute; reflexivity|].
  split; vm_compute; discriminate.
Qed.

(** C10: the id a successful registration assigns is greater than every
    id the history has issued before it, whether or not the accounts
    that held them are still there. *)
Theorem register_ids_increase (qs : list Request) (u : UserCreate.t)
    (t : string) (v : value) (n : Z) :
  snd (serve (after fresh qs) (Register u t)) = Ok v ->
  view_id v = Some n ->
  Forall (fun m => m < n) (issued_ids (trace fresh qs)).
Proof.
  destruct (serve (after fresh qs) (Register u t)) as [d' r] eqn:Hs.
  cbn [snd]. intros -> Hv.
  apply serve_register_ok in Hs as (k & -> & _ & _ & Hlt & _).
  rewrite view_id_view in Hv. inversion Hv; subst k.
  eapply Forall_impl; [|apply issued_ids_bounds]. simpl. intros m Hm. lia.
Qed.

Lemma register_ids_increase_witness :
  let qs := [Register alice noon; DeleteAccount 1] in
  issued_ids (trace fresh qs) = [1] /\
  users (after fresh qs) = [] /\
  snd (serve (after fresh qs) (Register bob noon))
  = Ok (view (new_row bob noon 2)) /\
  Forall (fun m => m < 2) (issued_ids (trace fresh qs)).
Proof.
  intros qs. split; [vm_compute; reflexivity|].
  split; [vm_compute; reflexivity|].
  split; [vm_compute; reflexivity|].
  apply (register_ids_increase qs bob noon (view (new_row bob noon 2)) 2).
  - vm_compute. reflexivity.
  - reflexivity.
Defined.

End Accounts.

(* ================================================================= *)
(** ** Registration *)

Section Registration.

Lemma taken_iff (u : UserCreate.t) (d : Database) :
  taken u d = true <->
  exists r, In r (users d) /\
            (username r = UserCreate.username u \/
             email r = UserCreate.email u).
Proof.
  unfold taken. rewrite existsb_exists. split.
  - intros (r & Hr & Hp). exists r. split; [exact Hr|].
    apply orb_true_iff in Hp. now rewrite !String.eqb_eq in Hp.
  - intros (r & Hr & Hp). exists r. split; [exact Hr|].
    apply orb_true_iff. now rewrite !String.eqb_eq.
Qed.

(** C1, as the code has it: when the check of a registration passes
    and its [INSERT] then meets a uniqueness violation, a row with its
    username or email having been committed in between, the outcome is
    the internal failure, status 500 with the text of the SQLite error
    as detail, and the database stays as the [INSERT] found it. *)
Theorem register_conflict_at_insert (u : UserCreate.t) (t : string)
    (os : list Slot) (d : Database) (m : string) :
  fault (hd quiet os) = None ->
  taken u (at_first os d) = false ->
  fault (hd quiet (tl os)) = None ->
  snd (sql_insert (UserCreate.username u) (UserCreate.email u)
         (hash_password (UserCreate.password u)) t (at_second os d))
  = Raise (IntegrityError m) ->
  run (register_user u t) os d
  = (at_second os d, Raise (HTTPException 500 m)) /\
  (m = "UNIQUE constraint failed: users.email" \/
   m = "UNIQUE constraint failed: users.username") /\
  taken u (at_second os d) = true.
Proof.
  intros Hf1 Hfree Hf2. rewrite register_user_run. cbv zeta.
  rewrite Hf1, Hfree, Hf2.
  destruct (sql_insert_spec (UserCreate.username u) (UserCreate.email u)
              (hash_password (UserCreate.password u)) t (at_second os d))
    as [Hfull|r Hr He|r Hr Hu Hne|n Hn Hmax Hnone]; cbn [snd];
    intros H; inversion H; subst m.
  - split; [reflexivity|]. split; [now left|].
    apply taken_iff. exists r. auto.
  - split; [reflexivity|]. split; [now right|].
    apply taken_iff. exists r. auto.
Qed.

Lemma register_conflict_at_insert_witness :
  run (register_user alice noon) racing fresh
  = (at_second racing fresh,
     Raise (HTTPException 500 "UNIQUE constraint failed: users.email")) /\
  taken alice (at_second racing fresh) = true.
Proof.
  destruct (register_conflict_at_insert alice noon racing fresh
              "UNIQUE constraint failed: users.email")
    as (H & _ & Ht).
  - reflexivity.
  - reflexivity.
  - reflexivity.
  - vm_compute. reflexivity.
  - split; [exact H|exact Ht].
Defined.

(** C1 as stated fails: in the race the outcome is not
    [DuplicateAccount]. *)
Lemma race_is_not_duplicate_account :
  fault (hd quiet racing) = None /\
  taken alice (at_first racing fresh) = false /\
  snd (sql_insert (UserCreate.username alice) (UserCreate.email alice)
         (hash_password (UserCreate.password alice)) noon
         (at_second racing fresh))
  = Raise (IntegrityError "UNIQUE constraint failed: users.email") /\
  snd (run (register_user alice noon) racing fresh)
  = Raise (HTTPException 500 "UNIQUE constraint failed: users.email") /\
  snd (run (register_user alice noon) racing fresh)
  <> Raise DuplicateAccount.
Proof.
  split; [reflexivity|]. split; [reflexivity|].
  split; [vm_compute; reflexivity|].
  split; [vm_compute; reflexivity|].
  vm_compute. discriminate.
Qed.

Lemma register_except_sqlite3 (f : sqlite3_error) (w : World) :
  register_except (sqlite3_exn f) w
  = (w, Raise (HTTPException 500 (str (sqlite3_exn f)))).
Proof. now destruct f as [[] m]. Qed.

(** C2, as the code has it: a storage error raised by a statement of
    the [try] block, the check, the [INSERT] with its commit or the
    read-back, whatever its class, makes the outcome status 500 with
    [str(e)], the text of that very exception, as detail; one raised
    while the connection is opened, before the [try], is caught by no
    clause and leaves the handler as it was raised. *)
Theorem register_storage_error_outcome (u : UserCreate.t) (t : string)
    (os : list Slot) (d : Database) (f : sqlite3_error) :
  run_on (Some f) (register_user u t) os d = (d, Raise (sqlite3_exn f)) /\
  (fault (hd quiet os) = Some f ->
   run (register_user u t) os d
   = (at_first os d, Raise (HTTPException 500 (str (sqlite3_exn f))))) /\
  (fault (hd quiet os) = None ->
   taken u (at_first os d) = false ->
   fault (hd quiet (tl os)) = Some f ->
   run (register_user u t) os d
   = (at_second os d, Raise (HTTPException 500 (str (sqlite3_exn f))))) /\
  (forall x : exn,
     fault (hd quiet os) = None ->
     taken u (at_first os d) = false ->
     fault (hd quiet (tl os)) = None ->
     snd (sql_insert (UserCreate.username u) (UserCreate.email u)
            (hash_password (UserCreate.password u)) t (at_second os d))
     = Raise x ->
     run (register_user u t) os d
     = (at_second os d, Raise (HTTPException 500 (str x)))) /\
  (forall (d3 : Database) (n : Z),
     fault (hd quiet os) = None ->
     taken u (at_first os d) = false ->
     fault (hd quiet (tl os)) = None ->
     sql_insert (UserCreate.username u) (UserCreate.email u)
       (hash_password (UserCreate.password u)) t (at_second os d)
     = (d3, Ok n) ->
     fault (hd quiet (tl (tl os))) = Some f ->
     run (register_user u t) os d
     = (at_third os d3,
        Raise (HTTPException 500 (str (sqlite3_exn f))))) /\
  (forall (c : sqlite3_class) (m : string),
     str (sqlite3_exn (Sqlite3 c m)) = m).
Proof.
  split; [reflexivity|].
  split; [|split; [|split; [|split]]].
  - intros H1. rewrite register_user_run. cbv zeta. now rewrite H1.
  - intros H1 Hfree H2. rewrite register_user_run. cbv zeta.
    now rewrite H1, Hfree, H2.
  - intros x H1 Hfree H2 Hx. rewrite register_user_run. cbv zeta.
    rewrite H1, Hfree, H2.
    destruct (sql_insert _ _ _ _ (at_second os d)) as [d3 [n|e]];
      cbn [snd] in Hx; [discriminate|]. now inversion Hx.
  - intros d3 n H1 Hfree H2 Hi H3. rewrite register_user_run. cbv zeta.
    now rewrite H1, Hfree, H2, Hi, H3.
  - now intros [] m.
Qed.

Lemma register_storage_error_outcome_witness :
  run_on (Some (Sqlite3 OperationalClass "unable to open database file"))
         (register_user alice noon) [] fresh
  = (fresh, Raise (OperationalError "unable to open database file")) /\
  run (register_user alice noon) locked fresh
  = (fresh, Raise (HTTPException 500 "database is locked")) /\
  run (register_user alice noon) (quiet :: locked) fresh
  = (fresh, Raise (HTTPException 500 "database is locked")) /\
  run (register_user alice noon) racing fresh
  = (at_second racing fresh,
     Raise (HTTPException 500 "UNIQUE constraint failed: users.email")) /\
  run (register_user alice noon) (quiet :: quiet :: locked) fresh
  = ({| users := [new_row alice noon 1]; sqlite_sequence := 1 |},
     Raise (HTTPException 500 "database is locked")).
Proof.
  split; [|split; [|split; [|split]]].
  - exact (proj1 (register_storage_error_outcome alice noon [] fresh
                    (Sqlite3 OperationalClass
                       "unable to open database file"))).
  - apply (proj1 (proj2 (register_storage_error_outcome alice noon locked
                           fresh
                           (Sqlite3 OperationalClass
                              "database is locked")))).
    reflexivity.
  - apply (proj1 (proj2 (proj2
             (register_storage_error_outcome alice noon (quiet :: locked)
                fresh (Sqlite3 OperationalClass "database is locked"))))).
    + reflexivity.
    + reflexivity.
    + reflexivity.
  - apply (proj1 (proj2 (proj2 (proj2
             (register_storage_error_outcome alice noon racing fresh
                (Sqlite3 OperationalClass "database is locked")))))
             (IntegrityError "UNIQUE constraint failed: users.email")).
    + reflexivity.
    + reflexivity.
    + reflexivity.
    + vm_compute. reflexivity.
  - apply (proj1 (proj2 (proj2 (proj2 (proj2
             (register_storage_error_outcome alice noon
                (quiet :: quiet :: locked) fresh
                (Sqlite3 OperationalClass "database is locked"))))))
             {| users := [new_row alice noon 1]; sqlite_sequence := 1 |}
             1).
    + reflexivity.
    + reflexivity.
    + reflexivity.
    + vm_compute. reflexivity.
    + reflexivity.
Defined.

(** C2 as stated fails: the detail is not one generic message, it is
    the text of whichever storage error the statement raised. *)
Lemma register_error_detail_not_generic :
  fault (hd quiet locked)
  = Some (Sqlite3 OperationalClass "database is locked") /\
  snd (run (register_user alice noon) locked fresh)
  = Raise (HTTPException 500 "database is locked") /\
  snd (sql_insert (UserCreate.username alice) (UserCreate.email alice)
         (hash_password (UserCreate.password alice)) noon
         (at_second racing fresh))
  = Raise (IntegrityError "UNIQUE constraint failed: users.email") /\
  snd (run (register_user alice noon) racing fresh)
  = Raise (HTTPException 500 "UNIQUE constraint failed: users.email") /\
  snd (run (register_user alice noon) locked fresh)
  <> snd (run (register_user alice noon) racing fresh).
Proof.
  split; [reflexivity|]. split; [vm_compute; reflexivity|].
  split; [vm_compute; reflexivity|]. split; [vm_compute; reflexivity|].
  vm_compute. discriminate.
Qed.

End Registration.

(* ================================================================= *)
(** ** What the handlers return *)

Section Outputs.













End Outputs.


(* ================================================================= *)
(** ** Uniqueness *)

Section Uniqueness.

Lemma NoDup_map_filter {A B} (p : A -> bool) (f : A -> B) (l : list A)
    (H : NoDup (map f l)) :
  NoDup (map f (filter p l)).
Proof.
  induction l as [|a l IH]; simpl in *; [constructor|].
  inversion H as [|x xs Hnot Hnd]; subst.
  destruct (p a); simpl; auto.
  constructor; auto.
  intros Hin. apply Hnot. apply in_map_iff in Hin as (a' & <- & Ha').
  apply in_map. apply filter_In in Ha'. tauto.
Qed.

Lemma NoDup_map_snoc {A B} (f : A -> B) (l : list A) (a : A) :
  NoDup (map f l) -> (forall a', In a' l -> f a' <> f a) ->
  NoDup (map f (l ++ [a])).
Proof.
  induction l as [|x l IH]; simpl; intros Hnd Hne.
  - constructor; [tauto|constructor].
  - inversion Hnd as [|y ys Hnot Hnd']; subst.
    constructor; [|apply IH; auto].
    rewrite map_app, in_app_iff. simpl.
    intros [Hin|[Heq|[]]]; [tauto|].
    apply (Hne x); auto.
Qed.

Lemma apply_write_unique (d : Database) (w : Write) :
  unique_users d -> unique_users (apply_write d w).
Proof.
  intros [Hu He]. destruct w as [u e h c|n]; simpl.
  - destruct (sql_insert_spec u e h c d)
      as [Hfull|r Hr Hdup|r Hr Hdup Hne|k Hk Hmax Hfree];
      simpl; try (split; assumption).
    split; apply NoDup_map_snoc; auto; intros r Hr; simpl;
      now apply Hfree.
  - split; now apply NoDup_map_filter.
Qed.

(** What holds of the database and is kept by every committed write is
    kept by every handler, whatever the other connections do. *)
Lemma closed_writes (P : Database -> Prop) (ws : list Write)
    (d : Database) :
  (forall d w, P d -> P (apply_write d w)) ->
  P d -> P (fold_left apply_write ws d).
Proof.
  intros Hclosed. revert d.
  induction ws as [|w ws IH]; intros d Hd; simpl; auto.
Qed.

Lemma handler_preserves (P : Database -> Prop) (q : Request)
    (os : list Slot) (d : Database) :
  (forall d w, P d -> P (apply_write d w)) ->
  P d -> P (fst (run (handler q) os d)).
Proof.
  intros Hclosed Hd.
  assert (P (at_first os d)) as H1
    by (unfold at_first; now apply closed_writes).
  assert (P (at_second os d)) as H2
    by (unfold at_second; now apply closed_writes).
  destruct q as [u t|c| |n|n]; cbn [handler].
  - rewrite register_user_run. cbv zeta.
    destruct (fault (hd quiet os)); [exact H1|].
    destruct (taken u (at_first os d)); [exact H1|].
    destruct (fault (hd quiet (tl os))); [exact H2|].
    pose proof (Hclosed (at_second os d)
                  (WInsert (UserCreate.username u) (UserCreate.email u)
                     (hash_password (UserCreate.password u)) t) H2) as H3.
    cbn [apply_write] in H3.
    destruct (sql_insert _ _ _ _ (at_second os d)) as [d3 [k|e]];
      [|exact H2].
    cbn [fst] in H3.
    assert (P (at_third os d3)) as H4
      by (unfold at_third; now apply closed_writes).
    destruct (fault (hd quiet (tl (tl os)))); [exact H4|].
    now destruct (filter _ (users (at_third os d3))).
  - rewrite login_user_run. now destruct (fault (hd quiet os)).
  - rewrite get_all_users_run. now destruct (fault (hd quiet os)).
  - rewrite get_user_run. destruct (bind_int n); [|exact Hd].
    now destruct (fault (hd quiet os)).
  - rewrite delete_user_run. destruct (bind_int n) as [k|e]; [|exact Hd].
    destruct (fault (hd quiet os)); [exact H1|].
    destruct (filter _ (users (at_first os d))); [exact H1|].
    destruct (fault (hd quiet (tl os))); [exact H2|].
    exact (Hclosed _ (WDelete k) H2).
Qed.

Lemma reachable_unique (d : Database) : reachable d -> unique_users d.
Proof.
  induction 1 as [|d w _ IH].
  - split; constructor.
  - now apply apply_write_unique.
Qed.

Lemma serve_keeps (q : Request) (d : Database) (r : Row) :
  In r (users d) -> q <> DeleteAccount (id r) ->
  In r (users (fst (serve d q))).
Proof.
  intros Hin Hq. destruct q as [u t|c| |n|n].
  - destruct (serve d (Register u t)) as [d' [v|e]] eqn:Hs; cbn [fst].
    + apply serve_register_ok in Hs as (k & _ & -> & _).
      apply in_or_app. now left.
    + now apply serve_raise in Hs as ->.
  - now rewrite serve_login.
  - now rewrite serve_list.
  - now rewrite serve_get.
  - rewrite serve_delete. destruct (bind_int n) as [k|e] eqn:Hb; [|exact Hin].
    apply bind_int_inv in Hb as [-> _].
    destruct (filter _ (users d)); [exact Hin|]. cbn [fst sql_delete users].
    apply filter_In. split; [exact Hin|].
    apply negb_true_iff, Z.eqb_neq. congruence.
Qed.

Lemma after_keeps (qs : list Request) (d : Database) (r : Row) :
  In r (users d) -> ~ In (DeleteAccount (id r)) qs ->
  In r (users (after d qs)).
Proof.
  revert d. induction qs as [|q qs IH]; intros d Hin Hqs; simpl; auto.
  apply IH.
  - apply serve_keeps; [exact Hin|]. intros ->. apply Hqs. now left.
  - intros H. apply Hqs. now right.
Qed.

(** While a live row has its username or email when its [INSERT]
    runs, a registration does not succeed. *)
Lemma register_refused_when_taken (u : UserCreate.t) (t : string)
    (os : list Slot) (d : Database) (v : value) :
  taken u (at_second os d) = true ->
  snd (run (register_user u t) os d) <> Ok v.
Proof.
  intros Htaken. rewrite register_user_run. cbv zeta.
  destruct (fault (hd quiet os)); [discriminate|].
  destruct (taken u (at_first os d)); [discriminate|].
  destruct (fault (hd quiet (tl os))); [discriminate|].
  apply taken_iff in Htaken as (r & Hr & Hsame).
  destruct (sql_insert_spec (UserCreate.username u) (UserCreate.email u)
              (hash_password (UserCreate.password u)) t (at_second os d))
    as [Hfull|r' Hr' Hdup|r' Hr' Hdup Hne|k Hk Hmax Hfree];
    try discriminate.
  destruct (Hfree r Hr). tauto.
Qed.

(** X21: a registration does not succeed while a row with its
    username or its email is in the table and none of the writes other
    connections commit before its [INSERT] deletes that row. *)
Lemma register_refused_while_live (u : UserCreate.t) (t : string)
    (os : list Slot) (d : Database) (r : Row) (v : value) :
  In r (users d) ->
  username r = UserCreate.username u \/ email r = UserCreate.email u ->
  ~ In (WDelete (id r))
       (writes (hd quiet os) ++ writes (hd quiet (tl os))) ->
  snd (run (register_user u t) os d) <> Ok v.
Proof.
  intros Hr Hsame Hlive. apply register_refused_when_taken.
  apply taken_iff. exists r. split; [|exact Hsame].
  unfold at_second, at_first. rewrite <- fold_left_app.
  now apply writes_keep.
Qed.

(** C3, as the code has it: no reachable database holds two rows with
    one username or one email, and every handler keeps the database
    reachable whatever runs beside it; a registration cannot succeed
    while a live row has its username or email when its [INSERT] runs;
    so of two registrations with the same username, or the same email,
    the second is refused as long as the account the first one created
    has not been deleted in between. *)
Theorem uniqueness_is_invariant :
  (forall d : Database, reachable d -> unique_users d) /\
  (forall (q : Request) (os : list Slot) (d : Database),
     reachable d -> reachable (fst (run (handler q) os d))) /\
  (forall (u : UserCreate.t) (t : string) (os : list Slot) (d : Database),
     taken u (at_second os d) = true ->
     forall v, snd (run (register_user u t) os d) <> Ok v) /\
  (forall (u1 u2 : UserCreate.t) (t1 t2 : string) (d d1 : Database)
          (v1 : value) (n1 : Z) (qs : list Request),
     serve d (Register u1 t1) = (d1, Ok v1) ->
     view_id v1 = Some n1 ->
     UserCreate.username u1 = UserCreate.username u2 \/
     UserCreate.email u1 = UserCreate.email u2 ->
     ~ In (DeleteAccount n1) qs ->
     snd (serve (after d1 qs) (Register u2 t2)) = Raise DuplicateAccount).
Proof.
  split; [exact reachable_unique|]. split; [|split].
  - intros q os d Hd. apply handler_preserves; [|exact Hd].
    intros d' w. apply reachable_write.
  - intros u t os d Htaken v. now apply register_refused_when_taken.
  - intros u1 u2 t1 t2 d d1 v1 n1 qs Hs Hv Hsame Hqs.
    apply serve_register_ok in Hs as (k & -> & Hrows & _).
    rewrite view_id_view in Hv. inversion Hv; subst k.
    rewrite serve_register.
    assert (taken u2 (after d1 qs) = true) as ->; [|reflexivity].
    apply taken_iff. exists (new_row u1 t1 n1). split.
    + apply after_keeps; [|exact Hqs].
      rewrite Hrows. apply in_or_app. right. now left.
    + simpl. destruct Hsame as [<-|<-]; auto.
Qed.

Lemma uniqueness_is_invariant_witness :
  unique_users (after fresh [Register alice noon; Register bob noon]) /\
  (forall v, snd (run (register_user alice noon) racing fresh) <> Ok v) /\
  snd (serve (after (fst (serve fresh (Register alice noon)))
                [Register bob noon; DeleteAccount 2])
         (Register alice_again noon)) = Raise DuplicateAccount.
Proof.
  destruct uniqueness_is_invariant as (Hinv & Hkeep & Hrace & Hpair).
  split; [|split].
  - apply Hinv.
    apply (Hkeep (Register bob noon) [] (after fresh [Register alice noon])).
    apply (Hkeep (Register alice noon) [] fresh).
    apply reachable_init.
  - apply Hrace. vm_compute. reflexivity.
  - apply (Hpair alice alice_again noon noon fresh
             (fst (serve fresh (Register alice noon)))
             (view (new_row alice noon 1)) 1).
    + vm_compute. reflexivity.
    + reflexivity.
    + left. reflexivity.
    + intros [H|[H|[]]]; discriminate.
Defined.

(** C3 as stated fails: a username and an email are free again once
    their account is deleted, and a second registration with them
    succeeds like the first. *)
Lemma register_again_after_delete :
  map snd (trace fresh [Register alice noon; DeleteAccount 1;
                        Register alice noon])
  = [Ok (view (new_row alice noon 1)); Ok (deleted_message 1);
     Ok (view (new_row alice noon 2))].
Proof. vm_compute. reflexivity. Qed.

End Uniqueness.

(* ================================================================= *)
(** ** Scenarios *)

Example hash_password_secret :
  hash_password "secret" =
  "2bb80d537b1da3e38bd30361aa855686bde0eacd7162fef6a25fe97bf527a25b".
Proof. vm_compute. reflexivity. Qed.

Example register_alice_twice :
  map snd (trace fresh [Register alice noon; Register alice_again noon])
  = [Ok (VDict [("id", VInt 1); ("username", VStr "alice");
                ("email", VStr "a@x.com"); ("created_at", VStr noon)]);
     Raise DuplicateAccount].
Proof. vm_compute. reflexivity. Qed.

Example register_then_login :
  map snd (trace fresh [Register bob noon; Login (bob_login "secret");
                        Login (bob_login "wrong")])
  = [Ok (view (new_row bob noon 1));
     Ok (VDict [("message", VStr "Login successful");
                ("user", VDict [("id", VInt 1); ("username", VStr "bob");
                                ("email", VStr "b@y.com")])]);
     Raise InvalidCredentials].
Proof. vm_compute. reflexivity. Qed.

Example delete_unknown :
  serve fresh (DeleteAccount 999) = (fresh, Raise NotFound).
Proof. vm_compute. reflexivity. Qed.

Example delete_message :
  snd (serve (after fresh [Register alice noon]) (DeleteAccount 1))
  = Ok (VDict [("message", VStr "User 1 deleted successfully")]).
Proof. vm_compute. reflexivity. Qed.

(** The row is gone by the time the handler reads it back. *)
Example register_then_deleted_by_another :
  run (register_user alice noon)
      [quiet; quiet; {| writes := [WDelete 1]; fault := None |}] fresh
  = ({| users := []; sqlite_sequence := 1 |},
     Raise (HTTPException 500 "'NoneType' object is not subscriptable")).
Proof. vm_compute. reflexivity. Qed.

(* ================================================================= *)
(** ** Registration, further *)

Section RegistrationOutcomes.

Lemma insert_id_in_range (u e h c : string) (d d' : Database) (n : Z) :
  sql_insert u e h c d = (d', Ok n) ->
  1 <= n <= INT64_MAX /\ sqlite_sequence d < n /\ max_rowid (users d) < n.
Proof.
  destruct (sql_insert_spec u e h c d)
    as [Hfull|r Hr He|r Hr Hu Hne|k Hk Hmax Hfree]; try discriminate.
  intros H. inversion H; subst.
  pose proof (max_rowid_ge (users d)). lia.
Qed.

Lemma taken_false_insert (u : UserCreate.t) (h c : string) (d : Database) :
  taken u d = false ->
  sql_insert (UserCreate.username u) (UserCreate.email u) h c d =
  let last := Z.max (sqlite_sequence d) (max_rowid (users d)) in
  if INT64_MAX <=? last then
    (d, Raise (OperationalError "database or disk is full"))
  else
    ({| users := users d ++
                 [{| id := last + 1; username := UserCreate.username u;
                     email := UserCreate.email u; password_hash := h;
                     created_at := c |}];
        sqlite_sequence := last + 1 |}, Ok (last + 1)).
Proof.
  intros Hfree. unfold sql_insert. cbv zeta.
  destruct (INT64_MAX <=? _); [reflexivity|].
  assert (forall r, In r (users d) ->
            String.eqb (username r) (UserCreate.username u)
            || String.eqb (email r) (UserCreate.email u) = false) as Hnone.
  { intros r Hr. unfold taken in Hfree.
    destruct (String.eqb (username r) (UserCreate.username u)
              || String.eqb (email r) (UserCreate.email u)) eqn:Hp;
      [|reflexivity].
    assert (existsb (fun r => String.eqb (username r) (UserCreate.username u)
                              || String.eqb (email r) (UserCreate.email u))
              (users d) = true) as Ht
      by (apply existsb_exists; eauto).
    congruence. }
  assert (existsb (fun r => String.eqb (email r) (UserCreate.email u))
            (users d) = false) as ->.
  { apply filter_nil_existsb, filter_none. intros r Hr.
    specialize (Hnone r Hr). now apply orb_false_iff in Hnone. }
  assert (existsb (fun r => String.eqb (username r) (UserCreate.username u))
            (users d) = false) as ->.
  { apply filter_nil_existsb, filter_none. intros r Hr.
    specialize (Hnone r Hr). now apply orb_false_iff in Hnone. }
  reflexivity.
Qed.

(** X1: served alone, a registration has three outcomes and no other:
    400 when its username or email is taken; else 500 "database or disk
    is full" when no id is left; else the new row, with the next id, the
    hash of the password and the clock reading, appended to the table
    and returned as its view.  A uniqueness error of the [INSERT] does
    not occur. *)
Theorem register_alone_outcomes (u : UserCreate.t) (t : string)
    (d : Database) :
  serve d (Register u t) =
  let last := Z.max (sqlite_sequence d) (max_rowid (users d)) in
  if taken u d then (d, Raise DuplicateAccount)
  else if INT64_MAX <=? last then
    (d, Raise (HTTPException 500 "database or disk is full"))
  else
    ({| users := users d ++ [new_row u t (last + 1)];
        sqlite_sequence := last + 1 |},
     Ok (view (new_row u t (last + 1)))).
Proof.
  rewrite serve_register. cbv zeta.
  destruct (taken u d) eqn:Hfree; [reflexivity|].
  rewrite (taken_false_insert u _ _ d Hfree). cbv zeta.
  now destruct (INT64_MAX <=? _).
Qed.

(** X2: the account a registration has just created can be looked up
    by the id returned, with the same view, and logged into with the
    password given; the table stores the hash of that password. *)
Theorem register_then_lookup (u : UserCreate.t) (t : string)
    (d d' : Database) (v : value) :
  serve d (Register u t) = (d', Ok v) ->
  exists n,
    view_id v = Some n /\
    serve d' (GetAccount n) = (d', Ok v) /\
    serve d' (Login (credentials_of u))
    = (d', Ok (login_payload (new_row u t n))) /\
    In (new_row u t n) (users d') /\
    password_hash (new_row u t n) = hash_password (UserCreate.password u).
Proof.
  intros Hs. pose proof Hs as Hreg. rewrite serve_register in Hreg.
  apply serve_register_ok in Hs
    as (n & -> & Hrows & Hseq & Hlt & Hmax & Hfree).
  rewrite Hfree in Hreg.
  destruct (sql_insert _ _ _ _ d) as [d1 [k|e]] eqn:Hi; [|discriminate].
  apply insert_id_in_range in Hi as (Hrange & _ & _).
  assert (k = n) as -> by now inversion Hreg.
  clear Hreg d1.
  exists n. split; [reflexivity|]. split; [|split; [|split]].
  - rewrite serve_get, bind_int_ok by (unfold INT64_MIN; lia).
    rewrite Hrows. change n with (id (new_row u t n)) at 1.
    rewrite filter_new_row; [reflexivity|]. simpl. lia.
  - rewrite serve_login, Hrows, filter_app.
    rewrite (filter_none (matches (credentials_of u)) (users d)).
    + simpl. unfold matches. simpl. now rewrite !String.eqb_refl.
    + intros r Hr. unfold matches. simpl.
      destruct (String.eqb (username r) (UserCreate.username u)) eqn:Hu;
        [|reflexivity].
      assert (taken u d = true) as Ht; [|congruence].
      apply taken_iff. exists r. split; [exact Hr|].
      left. now apply String.eqb_eq.
  - rewrite Hrows. apply in_or_app. right. now left.
  - reflexivity.
Qed.

Lemma register_then_lookup_witness :
  exists n,
    view_id (view (new_row bob noon 1)) = Some n /\
    serve (after fresh [Register bob noon]) (GetAccount n)
    = (after fresh [Register bob noon], Ok (view (new_row bob noon 1))) /\
    serve (after fresh [Register bob noon]) (Login (credentials_of bob))
    = (after fresh [Register bob noon],
       Ok (login_payload (new_row bob noon n))) /\
    In (new_row bob noon n) (users (after fresh [Register bob noon])) /\
    password_hash (new_row bob noon n)
    = hash_password (UserCreate.password bob).
Proof.
  apply (register_then_lookup bob noon fresh).
  vm_compute. reflexivity.
Defined.

(** X3: a registration that does not succeed raises the [sqlite3]
    exception met while its connection was opened, which no clause
    catches, or else, the connection open, an [HTTPException]: 400 for a
    duplicate found by its check or 500 for anything else, whatever
    other connections do and whatever its statements fail with. *)
Theorem register_raises_only_http (u : UserCreate.t) (t : string)
    (o : option sqlite3_error) (os : list Slot) (d : Database) (e : exn) :
  snd (run_on o (register_user u t) os d) = Raise e ->
  (exists f, o = Some f /\ e = sqlite3_exn f) \/
  (o = None /\
   (e = DuplicateAccount \/ exists m, e = HTTPException 500 m)).
Proof.
  destruct o as [f|].
  - intros H. left. exists f. split; [reflexivity|].
    change (snd (d, @Raise value (sqlite3_exn f)) = Raise e) in H.
    now inversion H.
  - fold (run (register_user u t) os d). intros H. right.
    split; [reflexivity|]. revert H.
    rewrite register_user_run. cbv zeta.
    repeat match goal with
           | |- context [match ?x with _ => _ end] =>
               destruct x; cbn [snd]; try discriminate
           end;
      intros H; inversion H; eauto.
Qed.

Lemma register_raises_only_http_witness :
  (exists f, @None sqlite3_error = Some f /\
             HTTPException 500 "database is locked" = sqlite3_exn f) \/
  (@None sqlite3_error = None /\
   (HTTPException 500 "database is locked" = DuplicateAccount \/
    exists m, HTTPException 500 "database is locked" = HTTPException 500 m)).
Proof.
  apply (register_raises_only_http alice noon None locked fresh).
  reflexivity.
Defined.

End RegistrationOutcomes.

(* ================================================================= *)
(** ** The ids of a reachable database *)

Section Ids.

Lemma sorted_map_filter {A} (f : A -> Z) (p : A -> bool) (l : list A) :
  StronglySorted Z.lt (map f l) ->
  StronglySorted Z.lt (map f (filter p l)).
Proof.
  induction l as [|a l IH]; simpl; intros Hs; [constructor|].
  inversion Hs as [|x xs Hrest Hall]; subst.
  destruct (p a); simpl; auto.
  constructor; auto.
  rewrite Forall_forall in *. intros y Hy.
  apply in_map_iff in Hy as (b & <- & Hb). apply filter_In in Hb as [Hb _].
  apply Hall. now apply in_map.
Qed.

Lemma sorted_map_snoc {A} (f : A -> Z) (l : list A) (a : A) :
  StronglySorted Z.lt (map f l) ->
  (forall b, In b l -> f b < f a) ->
  StronglySorted Z.lt (map f (l ++ [a])).
Proof.
  induction l as [|x l IH]; simpl; intros Hs Hlt.
  - constructor; constructor.
  - inversion Hs as [|y ys Hrest Hall]; subst.
    constructor; [apply IH; auto|].
    rewrite map_app, Forall_app. split; [exact Hall|].
    constructor; [|constructor]. simpl. apply Hlt. now left.
Qed.

Lemma max_rowid_le (rs : list Row) (m : Z) :
  0 <= m -> Forall (fun r => id r <= m) rs -> max_rowid rs <= m.
Proof.
  intros Hm. induction 1 as [|r rs Hr _ IH]; simpl; lia.
Qed.

Lemma apply_write_ids_ok (d : Database) (w : Write) :
  ids_ok d -> ids_ok (apply_write d w).
Proof.
  intros (Hsorted & Hbound & Hseq). destruct w as [u e h c|n]; simpl.
  - destruct (sql_insert_spec u e h c d)
      as [Hfull|r Hr Hdup|r Hr Hdup Hne|k Hk Hmax Hfree];
      simpl; try (repeat split; assumption || lia).
    assert (max_rowid (users d) <= sqlite_sequence d) as Hle.
    { apply max_rowid_le; [lia|].
      eapply Forall_impl; [|exact Hbound]. simpl. intros; lia. }
    assert (k = sqlite_sequence d + 1) as -> by lia.
    rewrite Forall_forall in Hbound.
    split; [|split].
    + apply sorted_map_snoc; [exact Hsorted|].
      intros b Hb. specialize (Hbound b Hb). simpl. lia.
    + apply Forall_app. split.
      * apply Forall_forall. intros b Hb. specialize (Hbound b Hb).
        cbn [sqlite_sequence]. lia.
      * constructor; [cbn [id sqlite_sequence]; lia|constructor].
    + cbn [sqlite_sequence]. lia.
  - split; [|split].
    + now apply sorted_map_filter.
    + rewrite Forall_forall in *. intros r Hr.
      apply filter_In in Hr as [Hr _]. auto.
    + exact Hseq.
Qed.

(** X4: the ids of a reachable database grow strictly along the table,
    so no two rows share one; each is at least 1 and at most
    [sqlite_sequence], which stays within the 64-bit range; and every
    handler keeps this, whatever other connections do. *)
Theorem reachable_ids_ok :
  (forall d : Database, reachable d -> ids_ok d) /\
  (forall (q : Request) (os : list Slot) (d : Database),
     ids_ok d -> ids_ok (fst (run (handler q) os d))).
Proof.
  split.
  - induction 1 as [|d w _ IH].
    + repeat split; try constructor; unfold INT64_MAX; simpl; lia.
    + now apply apply_write_ids_ok.
  - intros q os d Hd. apply handler_preserves; [|exact Hd].
    exact apply_write_ids_ok.
Qed.

Lemma reachable_ids_ok_witness :
  ids_ok (after fresh [Register alice noon; Register bob noon;
                       DeleteAccount 1]).
Proof.
  unfold after, serve.
  repeat apply (proj2 reachable_ids_ok).
  apply (proj1 reachable_ids_ok). apply reachable_init.
Defined.

Lemma ids_ok_unique_id (d : Database) (r r' : Row) :
  ids_ok d -> In r (users d) -> In r' (users d) -> id r = id r' -> r = r'.
Proof.
  intros (Hsorted & _ & _). 
  induction (users d) as [|x l IH]; simpl; [tauto|].
  inversion Hsorted as [|y ys Hrest Hall]; subst.
  rewrite Forall_forall in Hall.
  intros [->|Hr] [->|Hr'] Hid; auto.
  - assert (id r < id r') by (apply Hall; now apply in_map). lia.
  - assert (id r' < id r) by (apply Hall; now apply in_map). lia.
Qed.

Lemma ids_ok_filter_id (d : Database) (r : Row) :
  ids_ok d -> In r (users d) ->
  filter (fun r' => id r' =? id r) (users d) = [r].
Proof.
  intros Hok Hin.
  assert (forall r', In r' (users d) -> id r' = id r -> r' = r) as Huniq
    by (intros r' Hr' Hid; now apply (ids_ok_unique_id d)).
  destruct Hok as (Hsorted & _ & _).
  revert Hin Huniq Hsorted.
  induction (users d) as [|x l IH]; simpl; [tauto|].
  intros Hin Huniq Hsorted.
  inversion Hsorted as [|y ys Hrest Hall]; subst.
  rewrite Forall_forall in Hall.
  destruct (Z.eqb_spec (id x) (id r)) as [Heq|Hne].
  - assert (x = r) as -> by (apply Huniq; auto).
    f_equal. apply filter_none. intros r' Hr'.
    apply Z.eqb_neq.
    assert (id r < id r') by (apply Hall; now apply in_map). lia.
  - destruct Hin as [->|Hin]; [congruence|].
    apply IH; auto.
Qed.

(** X5: in a database whose ids are in order, [ListAccounts] and
    [GetAccount] agree: every row is returned by [GetAccount] under its
    own id with the very view [ListAccounts] lists; and the ids
    [ListAccounts] lists grow strictly, so none comes twice. *)
Theorem list_and_get_agree (d : Database) :
  ids_ok d ->
  (forall r, In r (users d) ->
     In (view r) (map view (users d)) /\
     serve d (GetAccount (id r)) = (d, Ok (view r))) /\
  serve d ListAccounts = (d, Ok (VList (map view (users d)))) /\
  StronglySorted Z.lt (map id (users d)).
Proof.
  intros Hok. split; [|split].
  - intros r Hr. split; [now apply in_map|].
    rewrite serve_get. rewrite bind_int_ok.
    + now rewrite ids_ok_filter_id.
    + destruct Hok as (_ & Hbound & Hseq).
      rewrite Forall_forall in Hbound. specialize (Hbound r Hr).
      unfold INT64_MIN. lia.
  - apply serve_list.
  - apply Hok.
Qed.

Lemma list_and_get_agree_witness :
  serve (after fresh [Register alice noon; Register bob noon])
        (GetAccount 2)
  = (after fresh [Register alice noon; Register bob noon],
     Ok (view (new_row bob noon 2))).
Proof.
  assert (ids_ok (after fresh [Register alice noon; Register bob noon]))
    as Hok.
  { unfold after, serve. repeat apply handler_preserves;
      try exact apply_write_ids_ok.
    repeat split; try constructor; unfold INT64_MAX; simpl; lia. }
  apply (proj1 (list_and_get_agree _ Hok) (new_row bob noon 2)).
  vm_compute. auto.
Defined.

(** X6: [GetAccount n] succeeds exactly when [n] is in the 64-bit range
    and some row has that id; the view it returns carries the id asked
    for, and the database is left as it was. *)
Theorem get_account_by_id (n : Z) (d : Database) :
  ((exists v, snd (serve d (GetAccount n)) = Ok v) <->
   (INT64_MIN <= n <= INT64_MAX /\ exists r, In r (users d) /\ id r = n)) /\
  (forall v, snd (serve d (GetAccount n)) = Ok v ->
     view_id v = Some n /\ exists r, In r (users d) /\ v = view r) /\
  fst (serve d (GetAccount n)) = d.
Proof.
  rewrite serve_get. cbn [fst snd].
  destruct (bind_int n) as [k|e] eqn:Hb.
  - apply bind_int_inv in Hb as [-> Hrange].
    destruct (filter (fun r => id r =? n) (users d)) as [|r rest] eqn:Hf.
    + split; [|split; [discriminate|reflexivity]]. split.
      * intros [v Hv]. discriminate.
      * intros (_ & r & Hr & Hid).
        assert (In r (filter (fun r => id r =? n) (users d))) as Hin
          by (apply filter_In; split; [exact Hr|now apply Z.eqb_eq]).
        rewrite Hf in Hin. destruct Hin.
    + assert (In r (filter (fun r => id r =? n) (users d))) as Hin
        by (rewrite Hf; now left).
      apply filter_In in Hin as [Hr Hid]. apply Z.eqb_eq in Hid.
      split; [|split; [|reflexivity]].
      * split; [eauto|]. intros _. now exists (view r).
      * intros v Hv. inversion Hv; subst v.
        rewrite view_id_view. split; [congruence|eauto].
  - apply bind_int_raise in Hb as [-> Hout].
    split; [|split; [discriminate|reflexivity]]. split.
    + intros [v Hv]. discriminate.
    + intros (Hrange & _). lia.
Qed.

Lemma get_account_by_id_witness :
  view_id (view (new_row alice noon 1)) = Some 1 /\
  exists r, In r (users (after fresh [Register alice noon])) /\
            view (new_row alice noon 1) = view r.
Proof.
  apply (proj1 (proj2 (get_account_by_id 1
                         (after fresh [Register alice noon])))).
  vm_compute. reflexivity.
Defined.

End Ids.

(* ================================================================= *)
(** ** Accounts, one among the others *)

Section Others.

Lemma NoDup_map_injective {A B} (f : A -> B) (l : list A) (a b : A) :
  NoDup (map f l) -> In a l -> In b l -> f a = f b -> a = b.
Proof.
  induction l as [|x l IH]; simpl; [tauto|].
  intros Hnd. inversion Hnd as [|y ys Hnot Hrest]; subst.
  intros [->|Ha] [->|Hb] Heq; auto.
  - destruct Hnot. rewrite Heq. now apply in_map.
  - destruct Hnot. rewrite <- Heq. now apply in_map.
Qed.

(** X7: where usernames are unique, a login with the username of an
    account and the password whose hash it stores returns the payload of
    that very account: its id, username and email. *)
Theorem login_returns_the_account (d : Database) (c : UserLogin.t)
    (r : Row) :
  unique_users d ->
  In r (users d) ->
  username r = UserLogin.username c ->
  password_hash r = hash_password (UserLogin.password c) ->
  serve d (Login c) = (d, Ok (login_payload r)).
Proof.
  intros [Hu _] Hr Hname Hhash. rewrite serve_login.
  destruct (filter (matches c) (users d)) as [|r' rest] eqn:Hf.
  - assert (In r (filter (matches c) (users d))) as Hin
      by (apply filter_In; split; [exact Hr|now apply matches_iff]).
    rewrite Hf in Hin. destruct Hin.
  - assert (In r' (filter (matches c) (users d))) as Hin
      by (rewrite Hf; now left).
    apply filter_In in Hin as [Hr' Hm]. apply matches_iff in Hm as [Hn' _].
    assert (r' = r) as ->; [|reflexivity].
    apply (NoDup_map_injective username (users d)); auto. congruence.
Qed.

Lemma login_returns_the_account_witness :
  serve (after fresh [Register alice noon; Register bob noon])
        (Login (bob_login "secret"))
  = (after fresh [Register alice noon; Register bob noon],
     Ok (login_payload (new_row bob noon 2))).
Proof.
  apply login_returns_the_account.
  - apply reachable_unique. unfold after, serve.
    repeat (apply handler_preserves; [intros; now apply reachable_write|]).
    apply reachable_init.
  - vm_compute. auto.
  - reflexivity.
  - reflexivity.
Defined.

(** X8: where usernames and emails are unique, deleting an account
    frees both: a registration with them is not refused as a
    duplicate. *)
Theorem delete_frees_name (d d' : Database) (r : Row) (v : value)
    (u : UserCreate.t) (t : string) :
  unique_users d ->
  In r (users d) ->
  serve d (DeleteAccount (id r)) = (d', Ok v) ->
  UserCreate.username u = username r ->
  UserCreate.email u = email r ->
  taken u d' = false /\
  snd (serve d' (Register u t)) <> Raise DuplicateAccount.
Proof.
  intros [Hu He] Hr Hs Hname Hmail.
  assert (taken u d' = false) as Hfree.
  { rewrite serve_delete in Hs.
    destruct (bind_int (id r)) as [k|e] eqn:Hb; [|discriminate].
    apply bind_int_inv in Hb as [-> _].
    destruct (filter _ (users d)); [discriminate|].
    inversion Hs; subst d' v.
    destruct (taken u (sql_delete (id r) d)) eqn:Ht; [|reflexivity].
    apply taken_iff in Ht as (r' & Hr' & Hsame).
    simpl in Hr'. apply filter_In in Hr' as [Hr' Hid].
    apply negb_true_iff, Z.eqb_neq in Hid.
    assert (r' = r) as ->; [|congruence].
    destruct Hsame as [Hsame|Hsame].
    - apply (NoDup_map_injective username (users d)); auto. congruence.
    - apply (NoDup_map_injective email (users d)); auto. congruence. }
  split; [exact Hfree|].
  rewrite serve_register, Hfree.
  destruct (sql_insert _ _ _ _ d') as [d1 [k|e]]; discriminate.
Qed.

Lemma delete_frees_name_witness :
  taken alice (fst (serve (after fresh [Register alice noon])
                          (DeleteAccount 1))) = false /\
  snd (serve (fst (serve (after fresh [Register alice noon])
                         (DeleteAccount 1)))
             (Register alice noon)) <> Raise DuplicateAccount.
Proof.
  apply (delete_frees_name (after fresh [Register alice noon]) _
           (new_row alice noon 1) (deleted_message 1)).
  - split; vm_compute; (constructor; [intros []|constructor]).
  - vm_compute. auto.
  - vm_compute. reflexivity.
  - reflexivity.
  - reflexivity.
Defined.

Lemma filter_id_after_delete (rs : list Row) (n m : Z) :
  m <> n ->
  filter (fun r => id r =? m) (filter (fun r => negb (id r =? n)) rs)
  = filter (fun r => id r =? m) rs.
Proof.
  intros Hne. induction rs as [|r rs IH]; [reflexivity|].
  cbn [filter]. destruct (Z.eqb_spec (id r) n) as [Hn|Hn]; cbn [negb filter].
  - destruct (Z.eqb_spec (id r) m); [lia|exact IH].
  - destruct (id r =? m); now rewrite IH.
Qed.

(** X9: a successful [DeleteAccount n] changes what [GetAccount]
    answers for [n] only, and removes from what [ListAccounts] returns
    the views with id [n] and no other. *)
Theorem delete_leaves_others (n m : Z) (d d' : Database) (v : value) :
  serve d (DeleteAccount n) = (d', Ok v) ->
  m <> n ->
  snd (serve d' (GetAccount m)) = snd (serve d (GetAccount m)) /\
  map view (users d')
  = filter (fun w => match view_id w with
                     | Some k => negb (k =? n)
                     | None => true
                     end) (map view (users d)).
Proof.
  rewrite serve_delete, !serve_get.
  destruct (bind_int n) as [k|e] eqn:Hb; [|discriminate].
  apply bind_int_inv in Hb as [-> _].
  destruct (filter _ (users d)) as [|r0 rest]; [discriminate|].
  intros H Hne. inversion H; subst d' v. cbn [snd sql_delete users].
  split; [|apply map_view_filter].
  destruct (bind_int m) as [k|e] eqn:Hb; [|reflexivity].
  apply bind_int_inv in Hb as [-> _].
  now rewrite filter_id_after_delete.
Qed.

Lemma delete_leaves_others_witness :
  snd (serve (fst (serve (after fresh [Register alice noon;
                                       Register bob noon])
                         (DeleteAccount 1))) (GetAccount 2))
  = snd (serve (after fresh [Register alice noon; Register bob noon])
               (GetAccount 2)).
Proof.
  apply (delete_leaves_others 1 2
           (after fresh [Register alice noon; Register bob noon]) _
           (deleted_message 1)).
  - vm_compute. reflexivity.
  - discriminate.
Defined.

(** X10: a successful registration changes what [GetAccount] answers
    for the id it returns only, and adds the view it returns at the end
    of what [ListAccounts] returns. *)
Theorem register_leaves_others (u : UserCreate.t) (t : string) (m : Z)
    (d d' : Database) (v : value) :
  serve d (Register u t) = (d', Ok v) ->
  view_id v <> Some m ->
  snd (serve d' (GetAccount m)) = snd (serve d (GetAccount m)) /\
  map view (users d') = map view (users d) ++ [v].
Proof.
  intros Hs Hv.
  apply serve_register_ok in Hs as (n & -> & Hrows & _).
  rewrite view_id_view in Hv. rewrite !serve_get, Hrows. cbn [snd].
  split; [|now rewrite map_app].
  destruct (bind_int m) as [k|e] eqn:Hb; [|reflexivity].
  apply bind_int_inv in Hb as [-> _].
  rewrite filter_app. cbn [filter new_row id].
  destruct (Z.eqb_spec n m) as [->|_]; [now destruct Hv|].
  now rewrite app_nil_r.
Qed.

Lemma register_leaves_others_witness :
  snd (serve (after fresh [Register alice noon; Register bob noon])
             (GetAccount 1))
  = snd (serve (after fresh [Register alice noon]) (GetAccount 1)).
Proof.
  apply (register_leaves_others bob noon 1
           (after fresh [Register alice noon])
           (after fresh [Register alice noon; Register bob noon])
           (view (new_row bob noon 2))).
  - vm_compute. reflexivity.
  - discriminate.
Defined.

(** X11: served alone, a request changes the database only if it is a
    [Register] or a [DeleteAccount] that succeeds: the three readers and
    every request that raises leave it as it was. *)
Theorem database_changes_only_on_success (q : Request) (d : Database) :
  fst (serve d q) <> d ->
  (exists u t v, q = Register u t /\ snd (serve d q) = Ok v) \/
  (exists n v, q = DeleteAccount n /\ snd (serve d q) = Ok v).
Proof.
  intros Hch. destruct (serve d q) as [d' [v|e]] eqn:Hs.
  - destruct q as [u t|c| |n|n].
    + left. exists u, t, v. split; reflexivity.
    + rewrite serve_login in Hs. inversion Hs. now destruct Hch.
    + rewrite serve_list in Hs. inversion Hs. now destruct Hch.
    + rewrite serve_get in Hs. inversion Hs. now destruct Hch.
    + right. exists n, v. split; reflexivity.
  - apply serve_raise in Hs. now destruct Hch.
Qed.

Lemma database_changes_only_on_success_witness :
  (exists u t v, Register alice noon = Register u t /\
                 snd (serve fresh (Register alice noon)) = Ok v) \/
  (exists n v, Register alice noon = DeleteAccount n /\
               snd (serve fresh (Register alice noon)) = Ok v).
Proof.
  apply database_changes_only_on_success.
  vm_compute. discriminate.
Defined.

End Others.

(* ================================================================= *)
(** ** Handlers beside other connections *)

Section Beside.

(** X12: [Login], [ListAccounts] and [GetAccount] commit nothing: the
    database they leave is the one their single statement found, with
    what other connections had committed by then, or the one they were
    given when the id could not be bound. *)
Theorem readers_commit_nothing (q : Request) (os : list Slot)
    (d : Database) :
  (forall u t, q <> Register u t) ->
  (forall n, q <> DeleteAccount n) ->
  fst (run (handler q) os d) = at_first os d \/
  fst (run (handler q) os d) = d.
Proof.
  intros Hreg Hdel. destruct q as [u t|c| |n|n]; cbn [handler].
  - now destruct (Hreg u t).
  - rewrite login_user_run. left. now destruct (fault (hd quiet os)).
  - rewrite get_all_users_run. left. now destruct (fault (hd quiet os)).
  - rewrite get_user_run. destruct (bind_int n); [left|now right].
    now destruct (fault (hd quiet os)).
  - now destruct (Hdel n).
Qed.

Lemma readers_commit_nothing_witness :
  fst (run (handler (Login carol_login)) racing fresh) = at_first racing fresh
  \/ fst (run (handler (Login carol_login)) racing fresh) = fresh.
Proof.
  apply readers_commit_nothing; discriminate.
Defined.

(** X13: when [DeleteAccount n] returns its message, a row with id [n]
    was there at its check, and none is left in the database it leaves,
    whatever other connections committed around its two statements. *)
Theorem delete_user_ok (n : Z) (os : list Slot) (d d' : Database)
    (v : value) :
  run (delete_user n) os d = (d', Ok v) ->
  v = deleted_message n /\
  d' = sql_delete n (at_second os d) /\
  (forall r, In r (users d') -> id r <> n) /\
  (exists r, In r (users (at_first os d)) /\ id r = n).
Proof.
  rewrite delete_user_run.
  destruct (bind_int n) as [k|e] eqn:Hb; [|discriminate].
  apply bind_int_inv in Hb as [-> _].
  destruct (fault (hd quiet os)); [discriminate|].
  destruct (filter (fun r => id r =? n) (users (at_first os d)))
    as [|r0 rest] eqn:Hf; [discriminate|].
  destruct (fault (hd quiet (tl os))); [discriminate|].
  intros H. inversion H; subst d' v.
  split; [reflexivity|]. split; [reflexivity|]. split.
  - intros r Hr. simpl in Hr. apply filter_In in Hr as [_ Hr].
    now apply negb_true_iff, Z.eqb_neq in Hr.
  - exists r0.
    assert (In r0 (filter (fun r => id r =? n) (users (at_first os d))))
      as Hin by (rewrite Hf; now left).
    apply filter_In in Hin as [Hin Hid]. now apply Z.eqb_eq in Hid.
Qed.

Lemma delete_user_ok_witness :
  deleted_message 1 = deleted_message 1 /\
  {| users := []; sqlite_sequence := 1 |}
  = sql_delete 1 (at_second [quiet; {| writes := [WDelete 1];
                                        fault := None |}]
                    (after fresh [Register alice noon])) /\
  (forall r, In r (users {| users := []; sqlite_sequence := 1 |}) ->
             id r <> 1) /\
  (exists r, In r (users (at_first [quiet; {| writes := [WDelete 1];
                                              fault := None |}]
                            (after fresh [Register alice noon])))
             /\ id r = 1).
Proof.
  apply (delete_user_ok 1 [quiet; {| writes := [WDelete 1]; fault := None |}]
           (after fresh [Register alice noon])).
  vm_compute. reflexivity.
Defined.

(** X14: only [register_user] has an [except] clause, and its [try]
    starts after the connection is opened.  A failure to open the
    connection leaves every handler as the [sqlite3] exception it is; a
    storage failure at the first statement, whatever its class, reaches
    the caller of [login_user], [get_all_users], [get_user] and
    [delete_user] as that exception, and that of [register_user] as an
    [HTTPException] of status 500 with its text; none of them has
    written anything. *)
Theorem storage_fault_at_first_statement (q : Request) (os : list Slot)
    (d : Database) (f : sqlite3_error) :
  run_on (Some f) (handler q) os d = (d, Raise (sqlite3_exn f)) /\
  (fault (hd quiet os) = Some f ->
   (forall n, q = GetAccount n \/ q = DeleteAccount n ->
              INT64_MIN <= n <= INT64_MAX) ->
   run (handler q) os d =
   (at_first os d,
    Raise (match q with
           | Register _ _ => HTTPException 500 (str (sqlite3_exn f))
           | _ => sqlite3_exn f
           end))).
Proof.
  split; [now destruct q|].
  intros Hf Hrange. destruct q as [u t|c| |n|n]; cbn [handler].
  - rewrite register_user_run. cbv zeta. now rewrite Hf.
  - rewrite login_user_run. now rewrite Hf.
  - rewrite get_all_users_run. now rewrite Hf.
  - rewrite get_user_run, bind_int_ok by (apply Hrange; eauto).
    now rewrite Hf.
  - rewrite delete_user_run, bind_int_ok by (apply Hrange; eauto).
    now rewrite Hf.
Qed.

Lemma storage_fault_at_first_statement_witness :
  run (handler (GetAccount 1))
      [{| writes := [];
          fault := Some (Sqlite3 DatabaseClass "file is not a database") |}]
      fresh
  = (fresh, Raise (DatabaseError "file is not a database")).
Proof.
  apply (proj2 (storage_fault_at_first_statement (GetAccount 1)
                  [{| writes := [];
                      fault := Some (Sqlite3 DatabaseClass
                                       "file is not a database") |}]
                  fresh (Sqlite3 DatabaseClass "file is not a database"))).
  - reflexivity.
  - intros n [H|H]; inversion H; subst n; vm_compute; split; discriminate.
Defined.

Lemma register_user_ok_witness :
  exists n,
    view (new_row alice noon 1) = view (new_row alice noon n) /\
    In (new_row alice noon n)
       (users (fst (run (register_user alice noon)
                        [quiet; quiet;
                         {| writes := [WInsert "bob" "b@y.com" "" noon];
                            fault := None |}] fresh))) /\
    sqlite_sequence
      (at_second [quiet; quiet;
                  {| writes := [WInsert "bob" "b@y.com" "" noon];
                     fault := None |}] fresh) < n.
Proof.
  apply (register_user_ok alice noon
           [quiet; quiet;
            {| writes := [WInsert "bob" "b@y.com" "" noon];
               fault := None |}] fresh).
  vm_compute. reflexivity.
Defined.

Lemma register_refused_while_live_witness :
  snd (run (register_user alice_again noon)
           [{| writes := [WDelete 2]; fault := None |}]
           (after fresh [Register alice noon; Register bob noon]))
  <> Ok (view (new_row alice_again noon 3)).
Proof.
  apply (register_refused_while_live alice_again noon
           [{| writes := [WDelete 2]; fault := None |}]
           (after fresh [Register alice noon; Register bob noon])
           (new_row alice noon 1)).
  - vm_compute. auto.
  - left. reflexivity.
  - vm_compute. intros [H|[]]. discriminate.
Defined.

End Beside.

(* ================================================================= *)
(** ** The shape of a password hash *)

Section Digest.

Lemma round_length (st : list Z) (kw : Z * Z) :
  List.length (SHA256.round st kw) = List.length st.
Proof.
  unfold SHA256.round.
  repeat (destruct st as [|? st]; try reflexivity).
Qed.

Lemma rounds_length (kws : list (Z * Z)) (st : list Z) :
  List.length (fold_left SHA256.round kws st) = List.length st.
Proof.
  revert st. induction kws as [|kw kws IH]; intros st; simpl; auto.
  now rewrite IH, round_length.
Qed.

Lemma compress_length (h block : list Z) :
  List.length (SHA256.compress h block) = List.length h.
Proof.
  unfold SHA256.compress.
  rewrite length_map, length_combine, rounds_length. apply Nat.min_id.
Qed.

Lemma blocks_length (n : nat) (h bs : list Z) :
  List.length (SHA256.blocks n h bs) = List.length h.
Proof.
  revert h bs. induction n as [|n IH]; intros h bs; simpl; auto.
  now rewrite IH, compress_length.
Qed.

Lemma big_endian_length (n : nat) (x : Z) :
  List.length (SHA256.big_endian n x) = n.
Proof. induction n as [|n IH]; simpl; congruence. Qed.

Lemma big_endian_bytes (n : nat) (x b : Z) :
  In b (SHA256.big_endian n x) -> 0 <= b < 256.
Proof.
  induction n as [|n IH]; simpl; [tauto|].
  intros [<-|Hb]; [|auto].
  change 0xff with (Z.ones 8). rewrite Z.land_ones by lia.
  apply Z.mod_pos_bound. lia.
Qed.

Lemma flat_map_length_const {A B} (f : A -> list B) (k : nat)
    (l : list A) :
  (forall a, List.length (f a) = k) ->
  List.length (flat_map f l) = (k * List.length l)%nat.
Proof.
  intros Hf. induction l as [|a l IH]; simpl; [lia|].
  rewrite length_app, Hf, IH. lia.
Qed.

Lemma string_length_of_list (l : list ascii) :
  String.length (string_of_list_ascii l) = List.length l.
Proof. induction l as [|c l IH]; simpl; congruence. Qed.

Lemma hex_digit_in (x : Z) : 0 <= x < 16 -> In (SHA256.hex_digit x) hex_chars.
Proof.
  intros Hx.
  assert (exists k : nat, (k < 16)%nat /\ x = Z.of_nat k) as (k & Hk & ->)
    by (exists (Z.to_nat x); lia).
  do 16 (destruct k as [|k]; [vm_compute; tauto|]). lia.
Qed.

Lemma hex_of_byte_in (b : Z) (c : ascii) :
  0 <= b < 256 -> In c (SHA256.hex_of_byte b) -> In c hex_chars.
Proof.
  intros Hb [<-|[<-|[]]]; apply hex_digit_in.
  - rewrite Z.shiftr_div_pow2 by lia. change (2 ^ 4) with 16.
    split; [apply Z.div_pos; lia|apply Z.div_lt_upper_bound; lia].
  - change 0xf with (Z.ones 4). rewrite Z.land_ones by lia.
    apply Z.mod_pos_bound. lia.
Qed.

(** X15: [hash_password] always returns 64 characters, each one of
    [0123456789abcdef]; so a password that is not itself 64 characters
    long is never what gets stored. *)
Theorem hash_password_is_hex (p : string) :
  String.length (hash_password p) = 64%nat /\
  Forall (fun c => In c hex_chars) (list_ascii_of_string (hash_password p))
  /\ (String.length p <> 64%nat -> hash_password p <> p).
Proof.
  assert (String.length (hash_password p) = 64%nat) as Hlen.
  { unfold hash_password, SHA256.hexdigest, SHA256.digest.
    rewrite string_length_of_list.
    rewrite (flat_map_length_const _ 2) by reflexivity.
    rewrite (flat_map_length_const _ 4) by (intros; apply big_endian_length).
    rewrite blocks_length. reflexivity. }
  split; [exact Hlen|]. split; [|congruence].
  unfold hash_password, SHA256.hexdigest.
  rewrite list_ascii_of_string_of_list_ascii.
  apply Forall_forall. intros c Hc.
  apply in_flat_map in Hc as (b & Hb & Hc).
  apply (hex_of_byte_in b); [|exact Hc].
  unfold SHA256.digest in Hb.
  apply in_flat_map in Hb as (w & _ & Hb).
  now apply big_endian_bytes in Hb.
Qed.

Lemma hash_password_is_hex_witness : hash_password "secret" <> "secret".
Proof.
  apply (proj2 (proj2 (hash_password_is_hex "secret"))).
  vm_compute. discriminate.
Defined.

End Digest.

Example root_when_locked :
  run_on (Some (Sqlite3 OperationalClass "unable to open database file"))
         root locked fresh
  = (fresh,
     Ok (VDict [("service", VStr "User Service");
                ("status", VStr "running"); ("version", VStr "1.0.0")])).
Proof. reflexivity. Qed.

(* ================================================================= *)
(** ** Rows and ids over time *)

Section OverTime.

(** X18: no handler ever modifies a row.  Whatever request is served
    and whatever other connections commit meanwhile, a row of the
    resulting table whose id is not above the [sqlite_sequence] it
    started from is a row of the starting table, field for field; and
    [sqlite_sequence] has not gone down. *)
Theorem rows_are_never_modified (q : Request) (os : list Slot)
    (d : Database) :
  sqlite_sequence d <= sqlite_sequence (fst (run (handler q) os d)) /\
  (forall r, In r (users (fst (run (handler q) os d))) ->
             id r <= sqlite_sequence d -> In r (users d)).
Proof.
  apply (handler_preserves
           (fun d' => sqlite_sequence d <= sqlite_sequence d' /\
                      (forall r, In r (users d') ->
                                 id r <= sqlite_sequence d ->
                                 In r (users d)))).
  - intros d' w [Hseq Hrows]. split.
    + pose proof (apply_write_sequence d' w). lia.
    + intros r Hr Hid. apply apply_write_rows in Hr as [Hr|Hlt]; [auto|lia].
  - split; [lia|auto].
Qed.

Lemma rows_are_never_modified_witness :
  In (new_row bob noon 1)
     (users (after fresh [Register bob noon; Register alice noon])).
Proof.
  apply (proj2 (rows_are_never_modified (DeleteAccount 2) racing
                  (after fresh [Register bob noon; Register alice noon]))).
  - vm_compute. auto.
  - vm_compute. discriminate.
Defined.

Lemma serve_ids_ok (q : Request) (d : Database) :
  ids_ok d -> ids_ok (fst (serve d q)).
Proof.
  intros Hd. unfold serve. apply handler_preserves; [|exact Hd].
  exact apply_write_ids_ok.
Qed.

Lemma serve_sequence_kept (q : Request) (d : Database) :
  issued (q, snd (serve d q)) = None ->
  sqlite_sequence (fst (serve d q)) = sqlite_sequence d.
Proof.
  destruct q as [u t|c| |n|n].
  - destruct (serve d (Register u t)) as [d' [v|e]] eqn:Hs; cbn [fst snd].
    + apply serve_register_ok in Hs as (k & -> & _).
      unfold issued. rewrite view_id_view. discriminate.
    + now apply serve_raise in Hs as ->.
  - now rewrite serve_login.
  - now rewrite serve_list.
  - now rewrite serve_get.
  - rewrite serve_delete. destruct (bind_int n); [|reflexivity].
    now destruct (filter _ (users d)).
Qed.

Lemma serve_next_id (u : UserCreate.t) (t : string) (d : Database)
    (n : Z) :
  ids_ok d ->
  issued (Register u t, snd (serve d (Register u t))) = Some n ->
  n = sqlite_sequence d + 1 /\
  sqlite_sequence (fst (serve d (Register u t))) = n.
Proof.
  intros (_ & Hbound & Hseq).
  destruct (serve d (Register u t)) as [d' [v|e]] eqn:Hs; cbn [fst snd];
    [|discriminate].
  pose proof Hs as Hreg. rewrite serve_register in Hreg.
  destruct (taken u d) eqn:Hfree; [discriminate|].
  rewrite (taken_false_insert u _ _ d Hfree) in Hreg. cbv zeta in Hreg.
  destruct (INT64_MAX <=? _); [discriminate|].
  assert (max_rowid (users d) <= sqlite_sequence d) as Hle.
  { apply max_rowid_le; [lia|].
    eapply Forall_impl; [|exact Hbound]. simpl. intros; lia. }
  inversion Hreg; subst d' v. unfold issued. rewrite view_id_view.
  intros H. inversion H; subst n. cbn [sqlite_sequence new_row id]. lia.
Qed.

Lemma issued_ids_from (qs : list Request) (d : Database) :
  ids_ok d ->
  issued_ids (trace d qs)
  = map (fun i => sqlite_sequence d + Z.of_nat i)
        (seq 1 (List.length (issued_ids (trace d qs)))).
Proof.
  revert d. induction qs as [|q qs IH]; intros d Hd; [reflexivity|].
  cbn [trace issued_ids].
  pose proof (IH _ (serve_ids_ok q d Hd)) as Hrest.
  destruct (issued (q, snd (serve d q))) as [n|] eqn:Hi.
  - assert (exists u t, q = Register u t) as (u & t & ->).
    { destruct q; try discriminate. eauto. }
    apply serve_next_id in Hi as [-> Hseq]; [|exact Hd].
    cbn [List.length seq map]. f_equal; try lia.
    rewrite Hseq in Hrest. rewrite Hrest at 1.
    rewrite <- (seq_shift _ 1), map_map.
    apply map_ext. intros i. lia.
  - apply serve_sequence_kept in Hi. now rewrite Hi in Hrest.
Qed.

(** X19: from the empty table, the ids issued are 1, 2, 3, ... in the
    order of the successful registrations: a refused registration and a
    deletion use up no id, and none is skipped. *)
Theorem issued_ids_are_consecutive (qs : list Request) :
  issued_ids (trace fresh qs)
  = map Z.of_nat (seq 1 (List.length (issued_ids (trace fresh qs)))).
Proof.
  rewrite issued_ids_from at 1.
  - apply map_ext. intros i. reflexivity.
  - repeat split; try constructor; unfold INT64_MAX; simpl; lia.
Qed.

Example ids_with_refusals_and_deletions :
  issued_ids (trace fresh [Register alice noon; Register alice_again noon;
                           DeleteAccount 1; Register bob noon;
                           Register alice noon])
  = [1; 2; 3].
Proof. vm_compute. reflexivity. Qed.

End OverTime.
